(** * Usage ledger and budget gate of the bot

    A shallow embedding of [bot/usage_tracker.py] (class [UsageTracker]) and
    of the access and budget functions of [bot/telegram_bot.py]
    ([is_allowed], [is_admin], [get_user_budget], [get_remaining_budget],
    [is_within_budget], [check_allowed_and_within_budget],
    [split_into_chunks]), followed by the properties of the ledger.

    Python values are embedded as follows.
    - [float] is IEEE binary64: Rocq's primitive [float], with the
      same correctly rounded [+ - * /].
    - [int] is [Z]; an [int] meeting a [float] in arithmetic is converted
      first ([int_to_float]).
    - A [dict] keyed by ISO dates keeps its insertion order (the order in
      which [sum(d.values())] adds floats): an association list.
    - [date] is a record; a date stored as its ISO string
      ([str(date.today())], read back with [date.fromisoformat]) is embedded
      as the date itself.
    - A method of an object with side effects is a function of the state
      (the object and the files) returning a result or the raised exception
      together with the state it leaves behind.
    - [date.today()] is an argument [today] of every method that calls it.
    - What the operating system answers when a directory is to be made or
      a file to be opened, read or written is given with the operating
      system ([os_t]); the methods take it as they find it. *)

From Stdlib Require Import ZArith Floats String Ascii List Bool Lia.
From stdpp Require Import gmap strings pretty.
Import ListNotations.

Set Warnings "-inexact-float".
#[local] Open Scope string_scope.
#[local] Open Scope Z_scope.

(** ** Exceptions and the state-and-exception monad *)

Inductive exn : Type :=
  | ValueError
  | TypeError
  | KeyError
  | IndexError
  | JSONDecodeError
  | OSError (name : string).

Inductive result (A : Type) : Type :=
  | Ok (a : A)
  | Raise (e : exn).

Arguments Ok {A} a.
Arguments Raise {A} e.

(** A computation over a state [S]: it ends with a value or an exception,
    and in both cases with the state reached so far (Python does not roll
    back what was mutated before a [raise]). *)
Definition M (S A : Type) : Type := S -> result A * S.

Definition ret {S A : Type} (a : A) : M S A := fun s => (Ok a, s).

Definition raise {S A : Type} (e : exn) : M S A := fun s => (Raise e, s).

Definition bind {S A B : Type} (m : M S A) (k : A -> M S B) : M S B :=
  fun s =>
    match m s with
    | (Ok a, s') => k a s'
    | (Raise e, s') => (Raise e, s')
    end.

Definition lift {S A : Type} (r : result A) : M S A := fun s => (r, s).

Definition gets {S A : Type} (f : S -> A) : M S A := fun s => (Ok (f s), s).

Definition modify {S : Type} (f : S -> S) : M S unit := fun s => (Ok tt, f s).

Notation "'let!' x ':=' m 'in' k" := (bind m (fun x => k))
  (at level 10, x name, m at level 100, k at level 200).
Notation "'run!' m 'in' k" := (bind m (fun _ => k))
  (at level 10, m at level 100, k at level 200).

(** ** Python built-ins used by the ledger *)

(** [float(n)] for an [int]: the nearest binary64, ties to even.  (CPython
    raises [OverflowError] from [2^1024] on, where this gives infinity;
    token counts are far below.) *)
Definition int_to_float (n : Z) : float :=
  SF2Prim (binary_normalize prec emax n 0 false).

(** The integer nearest to [num / den] ([den > 0]), ties to even. *)
Definition round_half_even (num den : Z) : Z :=
  let q := num / den in
  let r := num mod den in
  match 2 * r ?= den with
  | Lt => q
  | Gt => q + 1
  | Eq => if Z.even q then q else q + 1
  end.

(** The binary64 nearest to [n / 10^scale], with sign [s]. *)
Definition decimal_to_float (s : bool) (n : positive) (scale : Z) : float :=
  SF2Prim (SFdiv prec emax (S754_finite s n 0)
                           (S754_finite false (Z.to_pos (10 ^ scale)) 0)).

(** [round(x, ndigits)] for a float and [ndigits >= 0]: CPython rounds the
    exact binary value of [x] to [ndigits] decimals, ties to even, and
    returns the binary64 nearest to that decimal; infinities and NaN are
    returned as they are. *)
Definition py_round (x : float) (ndigits : Z) : float :=
  match Prim2SF x with
  | S754_finite s m e =>
      let num := Zpos m * 10 ^ ndigits * 2 ^ Z.max e 0 in
      let den := 2 ^ Z.max (- e) 0 in
      match round_half_even num den with
      | Zpos n => decimal_to_float s n ndigits
      | _ => if s then PrimFloat.neg_zero else PrimFloat.zero
      end
  | _ => x
  end.

(** [s.split(sep)] for a one-character separator. *)
Fixpoint str_split (sep : ascii) (s : string) : list string :=
  match s with
  | EmptyString => [EmptyString]
  | String c rest =>
      if Ascii.eqb c sep then EmptyString :: str_split sep rest
      else match str_split sep rest with
           | w :: ws => String c w :: ws
           | [] => [String c EmptyString]
           end
  end.

(** *** float(s)

    [float] of a [str] first turns every character into ASCII, drops the
    blanks around the number and takes out the underscores that stand
    between two digits; what is left is read as a signed [inf], [infinity]
    or [nan] (in any case of the letters) or as a decimal number with an
    optional point and exponent, and rounded to the nearest binary64. *)

(** The code points of a string, which holds the UTF-8 encoding of a
    Python [str]; a byte that begins no character gives [-1]. *)
Fixpoint code_points (s : string) : list Z :=
  let byte (c : ascii) : Z := Z.of_N (N_of_ascii c) in
  let follows (b : Z) : bool := (128 <=? b) && (b <? 192) in
  match s with
  | EmptyString => []
  | String c0 rest =>
      let b0 := byte c0 in
      if b0 <? 128 then b0 :: code_points rest
      else
        match rest with
        | String c1 rest1 =>
            let b1 := byte c1 in
            if (194 <=? b0) && (b0 <? 224) && follows b1 then
              ((b0 - 192) * 64 + (b1 - 128)) :: code_points rest1
            else
              match rest1 with
              | String c2 rest2 =>
                  let b2 := byte c2 in
                  let cp3 := (b0 - 224) * 4096 + (b1 - 128) * 64 + (b2 - 128) in
                  if (224 <=? b0) && (b0 <? 240) && follows b1 && follows b2
                     && (2048 <=? cp3) && negb ((55296 <=? cp3) && (cp3 <? 57344))
                  then cp3 :: code_points rest2
                  else
                    match rest2 with
                    | String c3 rest3 =>
                        let b3 := byte c3 in
                        let cp4 := (b0 - 240) * 262144 + (b1 - 128) * 4096
                                   + (b2 - 128) * 64 + (b3 - 128) in
                        if (240 <=? b0) && (b0 <? 245) && follows b1 && follows b2
                           && follows b3 && (65536 <=? cp4) && (cp4 <? 1114112)
                        then cp4 :: code_points rest3
                        else -1 :: code_points rest
                    | EmptyString => -1 :: code_points rest
                    end
              | EmptyString => -1 :: code_points rest
              end
        | EmptyString => [-1]
        end
  end.

(** [Py_UNICODE_ISSPACE] from U+007F on: U+0085, U+00A0, U+1680, U+2000 to
    U+200A, U+2028, U+2029, U+202F, U+205F and U+3000. *)
Definition unicode_space (c : Z) : bool :=
  (c =? 133) || (c =? 160) || (c =? 5760) || ((8192 <=? c) && (c <=? 8202))
  || (c =? 8232) || (c =? 8233) || (c =? 8239) || (c =? 8287) || (c =? 12288).

(** The digits zero of the scripts of Unicode 14.0 (the decimal digits,
    category Nd, outside ASCII); the digits one to nine follow each. *)
Definition decimal_zeros : list Z :=
  [1632; 1776; 1984; 2406; 2534; 2662; 2790; 2918; 3046; 3174; 3302; 3430; 3558;
   3664; 3792; 3872; 4160; 4240; 6112; 6160; 6470; 6608; 6784; 6800; 6992; 7088;
   7232; 7248; 42528; 43216; 43264; 43472; 43504; 43600; 44016; 65296; 66720;
   68912; 69734; 69872; 69942; 70096; 70384; 70736; 70864; 71248; 71360; 71472;
   71904; 72016; 72784; 73040; 73120; 92768; 92864; 93008;
   120782; 120792; 120802; 120812; 120822;
   123200; 123632; 125264; 130032].

(** [Py_UNICODE_TODECIMAL] *)
Definition unicode_decimal (c : Z) : option Z :=
  match find (fun zero => (zero <=? c) && (c <? zero + 10)) decimal_zeros with
  | Some zero => Some (c - zero)
  | None => None
  end.

(** What [float] makes of a character before it reads the number: a
    character below U+007F stays, white space from there on becomes a
    blank, a decimal digit of any script the ASCII digit of its value,
    anything else a question mark. *)
Definition to_ascii (c : Z) : Z :=
  if (0 <=? c) && (c <? 127) then c
  else if unicode_space c then 32
  else match unicode_decimal c with
       | Some d => 48 + d
       | None => 63
       end.

(** [Py_ISSPACE]: tab to carriage return, and the blank. *)
Definition ascii_space (c : Z) : bool := ((9 <=? c) && (c <=? 13)) || (c =? 32).

Definition ascii_digit (c : Z) : bool := (48 <=? c) && (c <=? 57).

Fixpoint drop_spaces (cs : list Z) : list Z :=
  match cs with
  | c :: rest => if ascii_space c then drop_spaces rest else cs
  | [] => []
  end.

Definition strip_spaces (cs : list Z) : list Z :=
  rev (drop_spaces (rev (drop_spaces cs))).

(** An underscore is allowed between two digits only: the characters
    without the underscores, or nothing when one of them is misplaced. *)
Fixpoint without_underscores (prev : Z) (cs : list Z) : option (list Z) :=
  match cs with
  | [] => Some []
  | c :: rest =>
      if c =? 95 then
        match rest with
        | next :: _ =>
            if ascii_digit prev && ascii_digit next then without_underscores c rest
            else None
        | [] => None
        end
      else
        match without_underscores c rest with
        | Some rest' => Some (c :: rest')
        | None => None
        end
  end.

(** Reads the leading digits of [cs]: the number they continue from
    [acc], how many were read, and what follows them. *)
Fixpoint read_digits (cs : list Z) (acc count : Z) : Z * Z * list Z :=
  match cs with
  | c :: rest =>
      if ascii_digit c then read_digits rest (10 * acc + (c - 48)) (count + 1)
      else (acc, count, cs)
  | [] => (acc, count, cs)
  end.

(** A leading [-] or [+]. *)
Definition read_sign (cs : list Z) : bool * list Z :=
  match cs with
  | 45 :: rest => (true, rest)
  | 43 :: rest => (false, rest)
  | _ => (false, cs)
  end.

Definition lower (c : Z) : Z := if (65 <=? c) && (c <=? 90) then c + 32 else c.

Fixpoint same_codes (a b : list Z) : bool :=
  match a, b with
  | [], [] => true
  | x :: a', y :: b' => (x =? y) && same_codes a' b'
  | _, _ => false
  end.

(** [cs] is [word], the case of the letters apart. *)
Definition spells (word : string) (cs : list Z) : bool :=
  same_codes (map lower cs)
    (map (fun a => Z.of_N (N_of_ascii a)) (list_ascii_of_string word)).

(** The binary64 nearest to [n * 10^scale], with sign [neg]: infinity
    beyond the range, zero below it. *)
Definition scaled_to_float (neg : bool) (n : Z) (scale : Z) : float :=
  match n with
  | Zpos p =>
      if 0 <=? scale then
        SF2Prim (binary_normalize prec emax
                   ((if neg then -1 else 1) * (n * 10 ^ scale)) 0 false)
      else decimal_to_float neg p (- scale)
  | _ => if neg then PrimFloat.neg_zero else PrimFloat.zero
  end.

(** [float(s)] for a string; [ValueError] for what is not a number. *)
Definition py_float (s : string) : result float :=
  let cs := strip_spaces (map to_ascii (code_points s)) in
  match without_underscores 0 cs with
  | None => Raise ValueError
  | Some cs =>
      let '(neg, body) := read_sign cs in
      if spells "inf" body || spells "infinity" body then
        Ok (if neg then neg_infinity else infinity)
      else if spells "nan" body then Ok nan
      else
        let '(ip, ni, rest) := read_digits body 0 0 in
        let '(n, nf, rest) :=
          match rest with
          | 46 :: r => read_digits r ip 0
          | _ => (ip, 0, rest)
          end in
        let '(ex, ne, rest) :=
          match rest with
          | 101 :: r | 69 :: r =>
              let '(eneg, r) := read_sign r in
              let '(ex, ne, r) := read_digits r 0 0 in
              (if eneg then - ex else ex, ne, r)
          | _ => (0, 1, rest)
          end in
        match rest with
        | [] =>
            if (0 <? ni + nf) && (0 <? ne) then Ok (scaled_to_float neg n (ex - nf))
            else Raise ValueError
        | _ => Raise ValueError
        end
  end.

(** [[float(x) for x in xs]]: the first failure is raised. *)
Fixpoint py_float_list (xs : list string) : result (list float) :=
  match xs with
  | [] => Ok []
  | x :: rest =>
      match py_float x with
      | Raise e => Raise e
      | Ok f =>
          match py_float_list rest with
          | Raise e => Raise e
          | Ok fs => Ok (f :: fs)
          end
      end
  end.

(** [l.index(x)] on a list of strings: [ValueError] when [x] is absent. *)
Fixpoint list_index (x : string) (l : list string) : result Z :=
  match l with
  | [] => Raise ValueError
  | y :: rest =>
      if String.eqb y x then Ok 0
      else match list_index x rest with
           | Ok i => Ok (i + 1)
           | Raise e => Raise e
           end
  end.

(** [x in l] on a list of strings. *)
Definition str_in (x : string) (l : list string) : bool :=
  existsb (String.eqb x) l.

(** [sum(xs)] on floats: from the integer [0], adding left to right. *)
Definition float_sum (xs : list float) : float :=
  fold_left PrimFloat.add xs PrimFloat.zero.

Definition int_sum (xs : list Z) : Z := fold_left Z.add xs 0.

(** [zip] applied to the unpacked rows: the columns, as many as the
    shortest row has entries. *)
Fixpoint zip_star (rows : list (list Z)) : list (list Z) :=
  match rows with
  | [] => []
  | [row] => map (fun x => [x]) row
  | row :: rest => map (fun '(x, col) => x :: col) (combine row (zip_star rest))
  end.

(** ** Dates *)

Module date.

Record t : Type := mk { year : Z; month : Z; day : Z }.

(** [a == b] on dates. *)
Definition eqb (a b : t) : bool :=
  (year a =? year b) && (month a =? month b) && (day a =? day b).

End date.

(** [year_month(date)]: the leading ["YYYY-MM"] of the ISO string, that is
    the pair of year and month. *)
Definition year_month (d : date.t) : Z * Z := (date.year d, date.month d).

(** ** Dictionaries keyed by date, in insertion order *)

Definition dict (V : Type) : Type := list (date.t * V).

Fixpoint dict_get {V : Type} (k : date.t) (d : dict V) : option V :=
  match d with
  | [] => None
  | (k', v) :: rest => if date.eqb k k' then Some v else dict_get k rest
  end.

(** [d[k] = v]: an existing key keeps its place, a new one goes last. *)
Fixpoint dict_set {V : Type} (k : date.t) (v : V) (d : dict V) : dict V :=
  match d with
  | [] => [(k, v)]
  | (k', v') :: rest =>
      if date.eqb k k' then (k, v) :: rest else (k', v') :: dict_set k v rest
  end.

Definition dict_values {V : Type} (d : dict V) : list V := map snd d.

(** ** The usage record (the JSON object of one user)

<<
    { "user_name": ...,
      "current_cost": {"day", "month", "all_time", "last_update"},
      "usage_history": {"chat_tokens", "transcription_seconds",
                        "number_images"} }
>>
    The key ["all_time"] may be missing (the code reads it with [.get]);
    the other keys are read with [[...]] and always written. *)

Record current_cost_t : Type := {
  day : float;
  month : float;
  all_time : option float;
  last_update : date.t
}.

Record usage_history_t : Type := {
  chat_tokens : dict Z;
  transcription_seconds : dict float;
  number_images : dict (list Z)
}.

Record usage_t : Type := {
  user_name : string;
  current_cost : current_cost_t;
  usage_history : usage_history_t
}.

Definition set_day (x : float) (c : current_cost_t) : current_cost_t :=
  {| day := x; month := month c; all_time := all_time c;
     last_update := last_update c |}.

Definition set_month (x : float) (c : current_cost_t) : current_cost_t :=
  {| day := day c; month := x; all_time := all_time c;
     last_update := last_update c |}.

Definition set_all_time (x : float) (c : current_cost_t) : current_cost_t :=
  {| day := day c; month := month c; all_time := Some x;
     last_update := last_update c |}.

Definition set_last_update (d : date.t) (c : current_cost_t) : current_cost_t :=
  {| day := day c; month := month c; all_time := all_time c;
     last_update := d |}.

Definition set_chat_tokens (d : dict Z) (h : usage_history_t) : usage_history_t :=
  {| chat_tokens := d; transcription_seconds := transcription_seconds h;
     number_images := number_images h |}.

Definition set_transcription_seconds (d : dict float) (h : usage_history_t)
  : usage_history_t :=
  {| chat_tokens := chat_tokens h; transcription_seconds := d;
     number_images := number_images h |}.

Definition set_number_images (d : dict (list Z)) (h : usage_history_t)
  : usage_history_t :=
  {| chat_tokens := chat_tokens h;
     transcription_seconds := transcription_seconds h;
     number_images := d |}.

(** ** Files

    A usage file is represented by what [json.load] makes of it: the usage
    object it encodes, or a [JSONDecodeError] for text that is not JSON.
    [json.dump] writes the encoding of the object it is given.  (A file
    holding JSON of another shape is outside this embedding.) *)

Inductive file : Type :=
  | JsonDocument (u : usage_t)
  | NotJson (text : string).

Definition json_load (f : file) : result usage_t :=
  match f with
  | JsonDocument u => Ok u
  | NotJson _ => Raise JSONDecodeError
  end.

Definition json_dump (u : usage_t) : file := JsonDocument u.

(** The files by path. *)
Abbreviation files := (gmap string file) (only parsing).

(** ** The operating system

    The class asks three things of the operating system, and each can be
    refused with an exception ([FileNotFoundError], [FileExistsError],
    [PermissionError], ...):
    - [pathlib.Path(logs_dir).mkdir(exist_ok=True)];
    - [open(path, "r")], with the reading that [json.load] does;
    - [open(path, "w")] followed by [json.dump(usage, outfile)] and the
      closing of the file.
    When and with what it refuses is not for the program to say: an
    operating system is given by its answers, which may depend on the
    files. *)

(** How [with open(path, "w") as outfile: json.dump(usage, outfile)] ends:
    the file is written; or [open] raises, and the files are as before; or
    [open] has made or emptied the file and the writing or the closing
    raises, the file holding what got written. *)
Inductive write_outcome : Type :=
  | Written
  | NotOpened (e : exn)
  | Broken (e : exn) (partial : file).

Class os_t : Type := {
  os_mkdir : string -> files -> option exn;
  os_read : string -> files -> option exn;
  os_write : string -> usage_t -> files -> write_outcome
}.

(** A request that changes no file of ours and may be refused. *)
Definition request (answer : files -> option exn) : M files unit :=
  fun disk =>
    match answer disk with
    | Some e => (Raise e, disk)
    | None => (Ok tt, disk)
    end.

(** ** class UsageTracker *)

(** A user id is an [int] (a Telegram id) or a [str] (['guests']). *)
Inductive pyid : Type :=
  | IdInt (n : Z)
  | IdStr (s : string).

(** The id as the f-string [f"{user_id}"] prints it. *)
Definition str_of_id (i : pyid) : string :=
  match i with
  | IdInt n => pretty n
  | IdStr s => s
  end.

Record UsageTracker : Type := {
  user_id : pyid;
  logs_dir : string;
  user_file : string;
  usage : usage_t
}.

Definition set_usage (u : usage_t) (t : UsageTracker) : UsageTracker :=
  {| user_id := user_id t; logs_dir := logs_dir t; user_file := user_file t;
     usage := u |}.

(** The state a method runs in: [self] and the files. *)
Definition world : Type := UsageTracker * files.

(** The path of the usage file of a user. *)
Definition usage_path (dir : string) (uid : pyid) : string :=
  String.append dir (String.append "/" (String.append (str_of_id uid) ".json")).

Definition fresh_usage (today : date.t) (name : string) : usage_t :=
  {| user_name := name;
     current_cost := {| day := 0.0; month := 0.0; all_time := Some 0.0%float;
                        last_update := today |};
     usage_history := {| chat_tokens := []; transcription_seconds := [];
                         number_images := [] |} |}.

(** [UsageTracker(user_id, user_name, logs_dir)].  [os.path.isfile] is
    whether there is a file at the path.  The directory that
    [mkdir(exist_ok=True)] makes holds no usage file yet and is not
    represented; that it can be made is up to the operating system. *)
Definition UsageTracker_init {os : os_t} (today : date.t) (uid : pyid)
    (name : string) (dir : string) : M files UsageTracker :=
  let path := usage_path dir uid in
  let! present := gets (fun disk : files => disk !! path) in
  match present with
  | Some f =>
      run! request (os_read path) in
      let! u := lift (json_load f) in
      ret {| user_id := uid; logs_dir := dir; user_file := path; usage := u |}
  | None =>
      run! request (os_mkdir dir) in
      ret {| user_id := uid; logs_dir := dir; user_file := path;
             usage := fresh_usage today name |}
  end.

Definition default_logs_dir : string := "usage_logs".

(** *** Access to [self.usage] *)

Definition read_cost : M world current_cost_t :=
  gets (fun w : world => current_cost (usage (fst w))).

Definition read_history : M world usage_history_t :=
  gets (fun w : world => usage_history (usage (fst w))).

Definition update_cost (f : current_cost_t -> current_cost_t) : M world unit :=
  modify (fun w : world =>
    let u := usage (fst w) in
    (set_usage {| user_name := user_name u; current_cost := f (current_cost u);
                  usage_history := usage_history u |} (fst w), snd w)).

Definition update_history (f : usage_history_t -> usage_history_t) : M world unit :=
  modify (fun w : world =>
    let u := usage (fst w) in
    (set_usage {| user_name := user_name u; current_cost := current_cost u;
                  usage_history := f (usage_history u) |} (fst w), snd w)).

(** [with open(self.user_file, "w") as outfile: json.dump(self.usage, outfile)] *)
Definition write_user_file {os : os_t} : M world unit :=
  fun w =>
    let path := user_file (fst w) in
    match os_write path (usage (fst w)) (snd w) with
    | Written => (Ok tt, (fst w, <[path := json_dump (usage (fst w))]> (snd w)))
    | NotOpened e => (Raise e, w)
    | Broken e partial => (Raise e, (fst w, <[path := partial]> (snd w)))
    end.

(** [d.get("all_time", default)] *)
Definition get_all_time (c : current_cost_t) (default : float) : float :=
  match all_time c with
  | Some x => x
  | None => default
  end.

(** *** initialize_all_time_cost *)

Definition default_tokens_price : float := 0.002.
Definition default_image_prices : string := "0.016,0.018,0.02".
Definition default_minute_price : float := 0.006.

(** [sum([count * price for count, price in zip(counts, prices)])] *)
Definition images_cost (counts : list Z) (prices : list float) : float :=
  float_sum (map (fun '(count, price) => (int_to_float count * price)%float)
                 (combine counts prices)).

Definition initialize_all_time_cost_of (tokens_price : float)
    (image_prices : string) (minute_price : float) (u : usage_t)
    : result float :=
  let h := usage_history u in
  let total_tokens := int_sum (dict_values (chat_tokens h)) in
  let token_cost :=
    py_round (int_to_float total_tokens * tokens_price / 1000)%float 6 in
  let total_images := map int_sum (zip_star (dict_values (number_images h))) in
  match py_float_list (str_split ","%char image_prices) with
  | Raise e => Raise e
  | Ok image_prices_list =>
      let image_cost := images_cost total_images image_prices_list in
      let total_transcription_seconds :=
        float_sum (dict_values (transcription_seconds h)) in
      let transcription_cost :=
        py_round (total_transcription_seconds * minute_price / 60)%float 2 in
      Ok (token_cost + transcription_cost + image_cost)%float
  end.

(** [self.initialize_all_time_cost()], as every call in the class is made:
    with the default prices. *)
Definition initialize_all_time_cost : M world float :=
  let! u := gets (fun w : world => usage (fst w)) in
  lift (initialize_all_time_cost_of default_tokens_price default_image_prices
          default_minute_price u).

(** *** add_chat_tokens *)

Definition add_chat_tokens {os : os_t} (today : date.t) (tokens : Z)
    (tokens_price : float) : M world unit :=
  let! cost0 := read_cost in
  let last_upd := last_update cost0 in
  let token_cost := py_round (int_to_float tokens * tokens_price / 1000)%float 6 in
  let! init := initialize_all_time_cost in
  run! update_cost (fun c => set_all_time (get_all_time c init + token_cost)%float c) in
  run! (if date.eqb today last_upd then
          run! update_cost (fun c => set_day (day c + token_cost)%float c) in
          update_cost (fun c => set_month (month c + token_cost)%float c)
        else
          run! (if date.month today =? date.month last_upd then
                  update_cost (fun c => set_month (month c + token_cost)%float c)
                else
                  update_cost (set_month token_cost)) in
          run! update_cost (set_day token_cost) in
          update_cost (set_last_update today)) in
  let! h := read_history in
  run! (match dict_get today (chat_tokens h) with
        | Some used =>
            update_history (fun h => set_chat_tokens
              (dict_set today (used + tokens) (chat_tokens h)) h)
        | None =>
            update_history (fun h => set_chat_tokens
              (dict_set today tokens (chat_tokens h)) h)
        end) in
  write_user_file.

(** *** get_current_token_usage *)

Definition get_current_token_usage (today : date.t) : M world (Z * Z) :=
  let! h := read_history in
  let usage_day :=
    match dict_get today (chat_tokens h) with
    | Some used => used
    | None => 0
    end in
  let this_month := year_month today in
  let usage_month :=
    fold_left (fun acc '(d, tokens) =>
                 if (fst (year_month d) =? fst this_month)
                    && (snd (year_month d) =? snd this_month)
                 then acc + tokens else acc)
              (chat_tokens h) 0 in
  ret (usage_day, usage_month).

(** *** add_image_request *)

(** The argument [image_prices]: the class gives it a string as default,
    and indexes it like a list of prices. *)
Inductive image_prices_t : Type :=
  | PricesStr (s : string)
  | PricesList (l : list float).

(** What [image_prices[i]] yields: a one-character string or a price. *)
Inductive price_item : Type :=
  | ItemStr (s : string)
  | ItemFloat (x : float).

Definition getitem (p : image_prices_t) (i : Z) : result price_item :=
  match p with
  | PricesStr s =>
      match String.get (Z.to_nat i) s with
      | Some c => Ok (ItemStr (String c EmptyString))
      | None => Raise IndexError
      end
  | PricesList l =>
      match nth_error l (Z.to_nat i) with
      | Some x => Ok (ItemFloat x)
      | None => Raise IndexError
      end
  end.

Definition sizes : list string := ["256x256"; "512x512"; "1024x1024"].

(** [counts[i] += 1] *)
Definition increment_at (i : Z) (counts : list Z) : result (list Z) :=
  match nth_error counts (Z.to_nat i) with
  | Some n => Ok (<[Z.to_nat i := n + 1]> counts)
  | None => Raise IndexError
  end.

Definition add_image_request {os : os_t} (today : date.t) (image_size : string)
    (image_prices : image_prices_t) : M world unit :=
  let! requested_size := lift (list_index image_size sizes) in
  let! image_item := lift (getitem image_prices requested_size) in
  let! cost0 := read_cost in
  let last_upd := last_update cost0 in
  let! init := initialize_all_time_cost in
  match image_item with
  | ItemStr _ => raise TypeError
  | ItemFloat image_cost =>
      run! update_cost (fun c => set_all_time (get_all_time c init + image_cost)%float c) in
      run! (if date.eqb today last_upd then
              run! update_cost (fun c => set_day (day c + image_cost)%float c) in
              update_cost (fun c => set_month (month c + image_cost)%float c)
            else
              run! (if date.month today =? date.month last_upd then
                      update_cost (fun c => set_month (month c + image_cost)%float c)
                    else
                      update_cost (set_month image_cost)) in
              run! update_cost (set_day image_cost) in
              update_cost (set_last_update today)) in
      let! h := read_history in
      run! (match dict_get today (number_images h) with
            | Some counts =>
                let! counts' := lift (increment_at requested_size counts) in
                update_history (fun h => set_number_images
                  (dict_set today counts' (number_images h)) h)
            | None =>
                run! update_history (fun h => set_number_images
                       (dict_set today [0; 0; 0] (number_images h)) h) in
                let! counts' := lift (increment_at requested_size [0; 0; 0]) in
                update_history (fun h => set_number_images
                  (dict_set today counts' (number_images h)) h)
            end) in
      write_user_file
  end.

(** *** add_transcription_seconds *)

Definition add_transcription_seconds {os : os_t} (today : date.t)
    (seconds : float) (minute_price : float) : M world unit :=
  let! cost0 := read_cost in
  let last_upd := last_update cost0 in
  let transcription_price := py_round (seconds * minute_price / 60)%float 2 in
  let! init := initialize_all_time_cost in
  run! update_cost (fun c =>
         set_all_time (get_all_time c init + transcription_price)%float c) in
  run! (if date.eqb today last_upd then
          run! update_cost (fun c => set_day (day c + transcription_price)%float c) in
          update_cost (fun c => set_month (month c + transcription_price)%float c)
        else
          run! (if date.month today =? date.month last_upd then
                  update_cost (fun c => set_month (month c + transcription_price)%float c)
                else
                  update_cost (set_month transcription_price)) in
          run! update_cost (set_day transcription_price) in
          update_cost (set_last_update today)) in
  let! h := read_history in
  run! (match dict_get today (transcription_seconds h) with
        | Some used =>
            update_history (fun h => set_transcription_seconds
              (dict_set today (used + seconds)%float (transcription_seconds h)) h)
        | None =>
            update_history (fun h => set_transcription_seconds
              (dict_set today seconds (transcription_seconds h)) h)
        end) in
  write_user_file.

(** *** get_current_cost *)

Record cost_report : Type := {
  cost_today : float;
  cost_month : float;
  cost_all_time : float
}.

Definition get_current_cost (today : date.t) : M world cost_report :=
  let! cost0 := read_cost in
  let last_upd := last_update cost0 in
  let '(cost_day, cost_mon) :=
    if date.eqb today last_upd then (day cost0, month cost0)
    else if date.month today =? date.month last_upd then (0.0%float, month cost0)
    else (0.0%float, 0.0%float) in
  let! init := initialize_all_time_cost in
  ret {| cost_today := cost_day; cost_month := cost_mon;
         cost_all_time := get_all_time cost0 init |}.

(** ** class ChatGPTTelegramBot: the budget functions

    The configuration is built outside these files; its entries have the
    types their uses here require: the id lists and the budget list are
    comma-separated strings (they are [split(',')]), the guest budget is a
    number.  Of the update only the sender's id and name are read. *)

Record config_t : Type := {
  allowed_user_ids : string;
  admin_user_ids : string;
  user_budgets : string;
  budget_period : string;
  guest_budget : float
}.

Record update_t : Type := {
  from_user_id : Z;
  from_user_name : string
}.

#[global] Instance pyid_eq_dec : EqDecision pyid.
Proof. solve_decision. Defined.

#[global] Instance pyid_countable : Countable pyid.
Proof.
  refine (inj_countable'
            (fun i => match i with IdInt n => inl n | IdStr s => inr s end)
            (fun x => match x with inl n => IdInt n | inr s => IdStr s end) _).
  intros []; reflexivity.
Defined.

(** The state of the bot: [self.usage], the trackers by user id, and the
    files. *)
Definition bot_world : Type := gmap pyid UsageTracker * files.

(** [budget_cost_map[period]] followed by the lookup of that key in the
    result of [get_current_cost]. *)
Definition budget_cost_map (period : string) : result (cost_report -> float) :=
  if String.eqb period "monthly" then Ok cost_month
  else if String.eqb period "daily" then Ok cost_today
  else if String.eqb period "all-time" then Ok cost_all_time
  else Raise KeyError.

(** [if key not in self.usage: self.usage[key] = UsageTracker(key, name)] *)
Definition ensure_tracker {os : os_t} (today : date.t) (key : pyid)
    (name : string) : M bot_world unit :=
  fun bw =>
    match fst bw !! key with
    | Some _ => (Ok tt, bw)
    | None =>
        match UsageTracker_init today key name default_logs_dir (snd bw) with
        | (Ok t, disk) => (Ok tt, (<[key := t]> (fst bw), disk))
        | (Raise e, disk) => (Raise e, (fst bw, disk))
        end
    end.

(** [self.usage[key].method(...)] *)
Definition on_tracker {A : Type} (key : pyid) (method : M world A)
    : M bot_world A :=
  fun bw =>
    match fst bw !! key with
    | None => (Raise KeyError, bw)
    | Some t =>
        match method (t, snd bw) with
        | (r, (t', disk)) => (r, (<[key := t']> (fst bw), disk))
        end
    end.

(** [is_admin(update)]; the log line of [log_no_admin] is left out. *)
Definition is_admin (config : config_t) (update : update_t) : bool :=
  if String.eqb (admin_user_ids config) "-" then false
  else str_in (pretty (from_user_id update))
              (str_split ","%char (admin_user_ids config)).

(** [get_user_budget(update)]: the answer [None] (not on the allow-list) is
    [Ok None]; the warnings logged on the way are left out. *)
Definition get_user_budget (config : config_t) (update : update_t)
    : result (option float) :=
  if is_admin config update || String.eqb (user_budgets config) "*" then
    Ok (Some infinity)
  else
    let budgets := str_split ","%char (user_budgets config) in
    if String.eqb (allowed_user_ids config) "*" then
      match budgets with
      | first :: _ =>
          match py_float first with
          | Ok b => Ok (Some b)
          | Raise e => Raise e
          end
      | [] => Raise IndexError
      end
    else
      let uid := pretty (from_user_id update) in
      let allowed := str_split ","%char (allowed_user_ids config) in
      if str_in uid allowed then
        match list_index uid allowed with
        | Raise e => Raise e
        | Ok user_index =>
            if Z.of_nat (length budgets) <=? user_index then Ok (Some 0.0%float)
            else
              match nth_error budgets (Z.to_nat user_index) with
              | None => Raise IndexError
              | Some b =>
                  match py_float b with
                  | Ok x => Ok (Some x)
                  | Raise e => Raise e
                  end
              end
        end
      else Ok None.

Definition guests : pyid := IdStr "guests".

Definition get_remaining_budget {os : os_t} (today : date.t)
    (config : config_t) (update : update_t) : M bot_world float :=
  let uid := IdInt (from_user_id update) in
  run! ensure_tracker today uid (from_user_name update) in
  let! user_budget := lift (get_user_budget config update) in
  let period := budget_period config in
  match user_budget with
  | Some budget =>
      let! report := on_tracker uid (get_current_cost today) in
      let! field := lift (budget_cost_map period) in
      ret (budget - field report)%float
  | None =>
      run! ensure_tracker today guests "all guest users in group chats" in
      let! report := on_tracker guests (get_current_cost today) in
      let! field := lift (budget_cost_map period) in
      ret (guest_budget config - field report)%float
  end.

Definition is_within_budget {os : os_t} (today : date.t) (config : config_t)
    (update : update_t) : M bot_world bool :=
  let uid := IdInt (from_user_id update) in
  run! ensure_tracker today uid (from_user_name update) in
  let! remaining_budget := get_remaining_budget today config update in
  ret (0 <? remaining_budget)%float.

(** ** Events, and what one event does to the usage record

    The three mutating methods seen as one operation on events, and the
    closed form of the state each of them leaves. *)

Inductive event : Type :=
  | ChatTokens (tokens : Z) (tokens_price : float)
  | TranscriptionSeconds (seconds : float) (minute_price : float)
  | ImageRequest (image_size : string) (image_prices : image_prices_t).

Definition apply_event {os : os_t} (today : date.t) (e : event) : M world unit :=
  match e with
  | ChatTokens tokens tokens_price => add_chat_tokens today tokens tokens_price
  | TranscriptionSeconds seconds minute_price =>
      add_transcription_seconds today seconds minute_price
  | ImageRequest image_size image_prices =>
      add_image_request today image_size image_prices
  end.

Fixpoint apply_events {os : os_t} (today : date.t) (es : list event)
    : M world unit :=
  match es with
  | [] => ret tt
  | e :: rest => run! apply_event today e in apply_events today rest
  end.

(** A sequence of events, each with the date on which it comes in. *)
Fixpoint apply_dated_events {os : os_t} (des : list (date.t * event))
    : M world unit :=
  match des with
  | [] => ret tt
  | (today, e) :: rest => run! apply_event today e in apply_dated_events rest
  end.

(** The cost each method computes for its event, before it touches the
    record. *)
Definition event_cost (e : event) : result float :=
  match e with
  | ChatTokens tokens tokens_price =>
      Ok (py_round (int_to_float tokens * tokens_price / 1000)%float 6)
  | TranscriptionSeconds seconds minute_price =>
      Ok (py_round (seconds * minute_price / 60)%float 2)
  | ImageRequest image_size image_prices =>
      match list_index image_size sizes with
      | Raise e => Raise e
      | Ok requested_size =>
          match getitem image_prices requested_size with
          | Raise e => Raise e
          | Ok (ItemStr _) => Raise TypeError
          | Ok (ItemFloat image_cost) => Ok image_cost
          end
      end
  end.

(** The price list the default string of [initialize_all_time_cost] parses
    to. *)
Definition default_image_prices_list : list float := [0.016; 0.018; 0.02]%float.

(** The value of [initialize_all_time_cost()] on a usage record. *)
Definition history_cost (u : usage_t) : float :=
  let h := usage_history u in
  (py_round (int_to_float (int_sum (dict_values (chat_tokens h)))
             * default_tokens_price / 1000) 6
   + py_round (float_sum (dict_values (transcription_seconds h))
               * default_minute_price / 60) 2
   + images_cost (map int_sum (zip_star (dict_values (number_images h))))
                 default_image_prices_list)%float.

(** The block of [current_cost] updates shared by the three methods, as a
    function of the cost of the event. *)
Definition charge (today : date.t) (cost init : float) (c : current_cost_t)
    : current_cost_t :=
  if date.eqb today (last_update c) then
    {| day := day c + cost; month := month c + cost;
       all_time := Some (get_all_time c init + cost)%float;
       last_update := last_update c |}
  else
    {| day := cost;
       month := if date.month today =? date.month (last_update c)
                then (month c + cost)%float else cost;
       all_time := Some (get_all_time c init + cost)%float;
       last_update := today |}.

(** The history after an event. *)
Definition record_event (today : date.t) (e : event) (h : usage_history_t)
    : usage_history_t :=
  match e with
  | ChatTokens tokens _ =>
      set_chat_tokens
        (dict_set today
           (match dict_get today (chat_tokens h) with
            | Some used => used + tokens
            | None => tokens
            end) (chat_tokens h)) h
  | TranscriptionSeconds seconds _ =>
      set_transcription_seconds
        (dict_set today
           (match dict_get today (transcription_seconds h) with
            | Some used => (used + seconds)%float
            | None => seconds
            end) (transcription_seconds h)) h
  | ImageRequest image_size _ =>
      match list_index image_size sizes with
      | Raise _ => h
      | Ok i =>
          let counts :=
            match dict_get today (number_images h) with
            | Some counts => counts
            | None => [0; 0; 0]
            end in
          set_number_images
            (dict_set today
               (<[Z.to_nat i := nth (Z.to_nat i) counts 0 + 1]> counts)
               (number_images h)) h
      end
  end.

Definition after_event (today : date.t) (e : event) (cost : float)
    (u : usage_t) : usage_t :=
  {| user_name := user_name u;
     current_cost := charge today cost (history_cost u) (current_cost u);
     usage_history := record_event today e (usage_history u) |}.

(** The data model's shape of the image counters: three per date. *)
Definition well_formed (u : usage_t) : Prop :=
  Forall (fun entry : date.t * list Z => length (snd entry) = 3%nat)
         (number_images (usage_history u)).

(** The state after a method has set [self.usage] to [u] and written the
    user file. *)
Definition stored (t : UsageTracker) (u : usage_t) (disk : files) : world :=
  (set_usage u t, <[user_file t := json_dump u]> disk).

(** The usage record after a sequence of events with the given costs. *)
Fixpoint after_events (today : date.t) (es : list event) (cs : list float)
    (u : usage_t) : usage_t :=
  match es, cs with
  | e :: es', c :: cs' => after_events today es' cs' (after_event today e c u)
  | _, _ => u
  end.

(** The same for events that come in on dates of their own. *)
Fixpoint after_dated_events (des : list (date.t * event)) (cs : list float)
    (u : usage_t) : usage_t :=
  match des, cs with
  | (today, e) :: des', c :: cs' =>
      after_dated_events des' cs' (after_event today e c u)
  | _, _ => u
  end.

(** [cs] are the costs of the events [es], one by one. *)
Definition costs (es : list event) (cs : list float) : Prop :=
  Forall2 (fun e c => event_cost e = Ok c) es cs.

(** ** Notions used in the statements *)

(** The answer of [get_current_cost] as a function of the usage record. *)
Definition current_cost_report (today : date.t) (u : usage_t) : cost_report :=
  let c := current_cost u in
  {| cost_today := if date.eqb today (last_update c) then day c else 0.0%float;
     cost_month := if date.eqb today (last_update c) then month c
                   else if date.month today =? date.month (last_update c)
                        then month c else 0.0%float;
     cost_all_time := get_all_time c (history_cost u) |}.

(** The date [b] is the calendar day after [a], in the same month. *)
Definition next_day_same_month (a b : date.t) : Prop :=
  date.year b = date.year a /\ date.month b = date.month a
  /\ date.day b = date.day a + 1.

(** The usage record restricted to the history entries of one date. *)
Definition on_date (d : date.t) (u : usage_t) : usage_t :=
  let keep {V : Type} (series : dict V) : dict V :=
    List.filter (fun entry => date.eqb (fst entry) d) series in
  {| user_name := user_name u;
     current_cost := current_cost u;
     usage_history :=
       {| chat_tokens := keep (chat_tokens (usage_history u));
          transcription_seconds := keep (transcription_seconds (usage_history u));
          number_images := keep (number_images (usage_history u)) |} |}.

(** The cost re-derived from the history entries of one date, the way
    [initialize_all_time_cost] derives the cost of the whole history. *)
Definition history_cost_on (d : date.t) (u : usage_t) : float :=
  history_cost (on_date d u).

(** The entries of one date in the three series. *)
Definition entries_on (d : date.t) (u : usage_t)
    : option Z * option float * option (list Z) :=
  let h := usage_history u in
  (dict_get d (chat_tokens h), dict_get d (transcription_seconds h),
   dict_get d (number_images h)).

(** What an event does to today's entries: it adds its quantity to the
    entry of its series, or creates the entry. *)
Definition note_event (entries : option Z * option float * option (list Z))
    (e : event) : option Z * option float * option (list Z) :=
  let '(tokens, seconds, images) := entries in
  match e with
  | ChatTokens n _ =>
      (Some match tokens with Some used => used + n | None => n end,
       seconds, images)
  | TranscriptionSeconds s _ =>
      (tokens,
       Some match seconds with Some used => (used + s)%float | None => s end,
       images)
  | ImageRequest image_size _ =>
      match list_index image_size sizes with
      | Raise _ => entries
      | Ok i =>
          let counts := match images with
                        | Some counts => counts
                        | None => [0; 0; 0]
                        end in
          (tokens, seconds,
           Some (<[Z.to_nat i := nth (Z.to_nat i) counts 0 + 1]> counts))
      end
  end.

(** The states the ledger's operations lead to: a tracker is constructed,
    then its methods are called, whether they return or raise. *)
Inductive reachable {os : os_t} : world -> Prop :=
  | reachable_new today uid name dir (disk : files) t disk' :
      UsageTracker_init today uid name dir disk = (Ok t, disk') ->
      reachable (t, disk')
  | reachable_event today e w r w' :
      reachable w -> apply_event today e w = (r, w') -> reachable w'
  | reachable_cost today w r w' :
      reachable w -> get_current_cost today w = (r, w') -> reachable w'.

(** A method that leaves [user_id], [logs_dir] and [user_file] of [self]
    alone. *)
Definition keeps_fields {A : Type} (m : M world A) : Prop :=
  forall w,
    user_id (fst (snd (m w))) = user_id (fst w)
    /\ logs_dir (fst (snd (m w))) = logs_dir (fst w)
    /\ user_file (fst (snd (m w))) = user_file (fst w).

(** ** Example data *)

Definition march_13 : date.t := date.mk 2023 3 13.
Definition march_14 : date.t := date.mk 2023 3 14.
Definition march_15 : date.t := date.mk 2023 3 15.
Definition march_14_of_2024 : date.t := date.mk 2024 3 14.

(** The usage record of the class docstring. *)
Definition docstring_usage : usage_t :=
  {| user_name := "@user_name";
     current_cost := {| day := 0.45; month := 3.23; all_time := Some 3.23%float;
                        last_update := march_14 |};
     usage_history :=
       {| chat_tokens := [(march_13, 520); (march_14, 1532)];
          transcription_seconds := [(march_13, 125%float); (march_14, 64%float)];
          number_images := [(date.mk 2023 3 12, [0; 2; 3]); (march_13, [1; 2; 3]);
                            (march_14, [0; 1; 2])] |} |}.

Definition docstring_tracker : UsageTracker :=
  {| user_id := IdInt 1; logs_dir := default_logs_dir;
     user_file := usage_path default_logs_dir (IdInt 1);
     usage := docstring_usage |}.

(** The same record as a file written before the key "all_time" existed. *)
Definition docstring_usage_without_all_time : usage_t :=
  {| user_name := user_name docstring_usage;
     current_cost := {| day := 0.45; month := 3.23; all_time := None;
                        last_update := march_14 |};
     usage_history := usage_history docstring_usage |}.

(** A tracker constructed on 2023-03-14 for a user without a file. *)
Definition fresh_tracker : UsageTracker :=
  {| user_id := IdInt 1; logs_dir := default_logs_dir;
     user_file := usage_path default_logs_dir (IdInt 1);
     usage := fresh_usage march_14 "@user_name" |}.

(** A tracker whose costs of 2023-03-14 are all [cost]. *)
Definition tracker_with_cost (cost : float) : UsageTracker :=
  {| user_id := IdInt 1; logs_dir := default_logs_dir;
     user_file := usage_path default_logs_dir (IdInt 1);
     usage := {| user_name := "@user_name";
                 current_cost := {| day := cost; month := cost;
                                    all_time := Some cost;
                                    last_update := march_14 |};
                 usage_history := usage_history docstring_usage |} |}.

Definition half_minute : event := TranscriptionSeconds 30 0.006.

Definition chat_1000 : event := ChatTokens 1000 0.002.

Definition image_512 : event :=
  ImageRequest "512x512" (PricesList default_image_prices_list).

Definition three_kinds : list event :=
  [chat_1000; TranscriptionSeconds 90 0.006; image_512].

(** Users 1 and 2 are allowed, with daily budgets 5.00 and 10; no admin. *)
Definition two_users_config : config_t :=
  {| allowed_user_ids := "1,2"; admin_user_ids := "-";
     user_budgets := "5.00,10"; budget_period := "daily";
     guest_budget := 0.0 |}.

Definition update_from_user_1 : update_t :=
  {| from_user_id := 1; from_user_name := "@user_name" |}.

(** ** More of class UsageTracker *)

(** *** get_current_image_count *)

Definition get_current_image_count (today : date.t) : M world (Z * Z) :=
  let! h := read_history in
  let usage_day :=
    match dict_get today (number_images h) with
    | Some images => int_sum images
    | None => 0
    end in
  let this_month := year_month today in
  let usage_month :=
    fold_left (fun acc '(d, images) =>
                 if (fst (year_month d) =? fst this_month)
                    && (snd (year_month d) =? snd this_month)
                 then acc + int_sum images else acc)
              (number_images h) 0 in
  ret (usage_day, usage_month).

(** [key.startswith(str(today)[:7])] on the ISO string of the date [d]:
    the year and the month of [d] are those of [today]. *)
Definition in_month_of (today d : date.t) : bool :=
  (date.year d =? date.year today) && (date.month d =? date.month today).

(** A method that leaves every file but the user file of [self] alone,
    and the fields of [self] that name it. *)
Definition own_file_only {A : Type} (m : M world A) : Prop :=
  forall w,
    user_file (fst (snd (m w))) = user_file (fst w)
    /\ forall path, path <> user_file (fst w) ->
                    snd (snd (m w)) !! path = snd w !! path.

(** ** More of class ChatGPTTelegramBot *)

(** *** The constructor

    Of the fields set by [__init__], the two messages and [self.usage],
    which starts empty; the command lists play no part in what follows. *)

Definition budget_print_map (period : string) : result string :=
  if String.eqb period "monthly" then Ok " this month"
  else if String.eqb period "daily" then Ok " today"
  else if String.eqb period "all-time" then Ok ""
  else Raise KeyError.

Record bot_t : Type := {
  disallowed_message : string;
  budget_limit_message : string
}.

Definition ChatGPTTelegramBot_init (config : config_t)
    : result (bot_t * gmap pyid UsageTracker) :=
  match budget_print_map (budget_period config) with
  | Raise e => Raise e
  | Ok suffix =>
      Ok ({| disallowed_message :=
               "Извините, вам не разрешено использовать этого бота.   ";
             budget_limit_message :=
               String.append "Извините, вы достигли лимита использования"
                 (String.append suffix ".") |},
          ∅)
  end.

(** *** split_into_chunks *)

(** [range(0, n, step)] for [n >= 0]: a zero step is a [ValueError], a
    negative step gives nothing, a positive step the multiples of [step]
    below [n]. *)
Definition range_from_zero (n step : Z) : result (list Z) :=
  if step =? 0 then Raise ValueError
  else if step <? 0 then Ok []
  else Ok (map (fun k => Z.of_nat k * step)
               (seq 0 (Z.to_nat ((n + step - 1) / step)))).

(** A text is the list of its characters; [text[i:j]] for [0 <= i <= j]
    is what is left of the first [j] characters after the first [i]. *)
Definition split_into_chunks {A : Type} (text : list A) (chunk_size : Z)
    : result (list (list A)) :=
  match range_from_zero (Z.of_nat (length text)) chunk_size with
  | Raise e => Raise e
  | Ok starts =>
      Ok (map (fun i => firstn (Z.to_nat (i + chunk_size) - Z.to_nat i)
                               (skipn (Z.to_nat i) text))
              starts)
  end.

Definition default_chunk_size : Z := 4096.

(** *** is_group_chat, is_user_in_group, is_allowed *)

(** [update.effective_chat.type], one of [telegram.constants.ChatType]. *)
Inductive chat_type : Type :=
  | SenderChat
  | PrivateChat
  | GroupChat
  | SupergroupChat
  | ChannelChat.

Definition is_group_chat (chat : chat_type) : bool :=
  match chat with
  | GroupChat | SupergroupChat => true
  | _ => false
  end.

(** [chat_member.status], one of [telegram.ChatMember]'s. *)
Inductive member_status : Type :=
  | Owner
  | Administrator
  | Member
  | Restricted
  | LeftChat
  | Banned.

(** What a request to Telegram raises: [telegram.error.BadRequest] or
    another exception, with the text [str(e)]. *)
Inductive telegram_error : Type :=
  | BadRequest (message : string)
  | OtherError (message : string).

(** The end of a call that talks to Telegram. *)
Inductive reply (A : Type) : Type :=
  | Replied (a : A)
  | Failed (e : telegram_error).

Arguments Replied {A} a.
Arguments Failed {A} e.

(** [is_user_in_group(update, context, user_id)], given what
    [context.bot.get_chat_member(chat_id, user_id)] answers for each id. *)
Definition is_user_in_group (get_chat_member : string -> reply member_status)
    (user : string) : reply bool :=
  match get_chat_member user with
  | Replied status =>
      Replied match status with
              | Owner | Administrator | Member => true
              | _ => false
              end
  | Failed (BadRequest message) =>
      if String.eqb message "Пользователь не найден" then Replied false
      else Failed (BadRequest message)
  | Failed e => Failed e
  end.

(** [not user.strip()]: the string consists of white space only.  Strings
    are UTF-8; the white space of Python is U+0009 to U+000D, U+001C to
    U+0020, U+0085, U+00A0, U+1680, U+2000 to U+200A, U+2028, U+2029,
    U+202F, U+205F and U+3000. *)
Fixpoint is_blank (s : string) : bool :=
  match s with
  | EmptyString => true
  | String c rest =>
      let n := Z.of_N (N_of_ascii c) in
      if ((9 <=? n) && (n <=? 13)) || ((28 <=? n) && (n <=? 32)) then is_blank rest
      else
        match rest with
        | String c2 rest2 =>
            let n2 := Z.of_N (N_of_ascii c2) in
            if (n =? 194) && ((n2 =? 133) || (n2 =? 160)) then is_blank rest2
            else
              match rest2 with
              | String c3 rest3 =>
                  let n3 := Z.of_N (N_of_ascii c3) in
                  if ((n =? 225) && (n2 =? 154) && (n3 =? 128))
                     || ((n =? 226) && (n2 =? 128)
                         && (((128 <=? n3) && (n3 <=? 138))
                             || (n3 =? 168) || (n3 =? 169) || (n3 =? 175)))
                     || ((n =? 226) && (n2 =? 129) && (n3 =? 159))
                     || ((n =? 227) && (n2 =? 128) && (n3 =? 128))
                  then is_blank rest3
                  else false
              | EmptyString => false
              end
        | EmptyString => false
        end
  end.

(** The loop of [is_allowed] over the listed ids: the first id found in the
    group ends it. *)
Fixpoint any_user_in_group (get_chat_member : string -> reply member_status)
    (users : list string) : reply bool :=
  match users with
  | [] => Replied false
  | user :: rest =>
      if is_blank user then any_user_in_group get_chat_member rest
      else
        match is_user_in_group get_chat_member user with
        | Failed e => Failed e
        | Replied true => Replied true
        | Replied false => any_user_in_group get_chat_member rest
        end
  end.

Definition is_allowed (config : config_t) (update : update_t) (chat : chat_type)
    (get_chat_member : string -> reply member_status) : reply bool :=
  if String.eqb (allowed_user_ids config) "*" then Replied true
  else if is_admin config update then Replied true
  else
    let allowed := str_split ","%char (allowed_user_ids config) in
    if str_in (pretty (from_user_id update)) allowed then Replied true
    else if is_group_chat chat then
      let admins := str_split ","%char (admin_user_ids config) in
      any_user_in_group get_chat_member (allowed ++ admins)
    else Replied false.

(** *** check_allowed_and_within_budget *)

(** What the check raises: an exception of the budget functions or one of
    Telegram. *)
Inductive raised : Type :=
  | RaisedHere (e : exn)
  | RaisedByTelegram (e : telegram_error).

Inductive verdict : Type :=
  | Verdict (b : bool)
  | Raises (e : raised).

(** [send_message text] is what sending [text] to the chat raises, if
    anything. *)
Definition check_allowed_and_within_budget {os : os_t} (today : date.t)
    (config : config_t) (bot : bot_t) (update : update_t) (chat : chat_type)
    (get_chat_member : string -> reply member_status)
    (send_message : string -> option telegram_error)
    (bw : bot_world) : verdict * bot_world :=
  match is_allowed config update chat get_chat_member with
  | Failed e => (Raises (RaisedByTelegram e), bw)
  | Replied false =>
      match send_message (disallowed_message bot) with
      | Some e => (Raises (RaisedByTelegram e), bw)
      | None => (Verdict false, bw)
      end
  | Replied true =>
      match is_within_budget today config update bw with
      | (Raise e, bw') => (Raises (RaisedHere e), bw')
      | (Ok false, bw') =>
          match send_message (budget_limit_message bot) with
          | Some e => (Raises (RaisedByTelegram e), bw')
          | None => (Verdict false, bw')
          end
      | (Ok true, bw') => (Verdict true, bw')
      end
  end.

(** A step of the budget functions that writes no file and leaves the
    registered trackers as they are. *)
Definition reads_only {A : Type} (m : M bot_world A) : Prop :=
  forall bw,
    snd (snd (m bw)) = snd bw
    /\ forall key t, fst bw !! key = Some t -> fst (snd (m bw)) !! key = Some t.

(** The user file holds the record that [self.usage] holds. *)
Definition synced (w : world) : Prop :=
  snd w !! user_file (fst w) = Some (json_dump (usage (fst w))).

(** A method that, when it returns, has left the user file and
    [self.usage] in agreement. *)
Definition ends_in_write {A : Type} (m : M world A) : Prop :=
  forall w a w', m w = (Ok a, w') -> synced w'.

(** ** More example data *)

(** The record of the class docstring with a file-made defect: today's
    image counters have two entries. *)
Definition short_counters_usage : usage_t :=
  {| user_name := user_name docstring_usage;
     current_cost := current_cost docstring_usage;
     usage_history :=
       {| chat_tokens := chat_tokens (usage_history docstring_usage);
          transcription_seconds :=
            transcription_seconds (usage_history docstring_usage);
          number_images := [(march_13, [1; 2; 3]); (march_14, [0; 1])] |} |}.

(** The files of two users, the second one unreadable. *)
Definition two_files : files :=
  {[ usage_path default_logs_dir (IdInt 1) := JsonDocument docstring_usage;
     usage_path default_logs_dir (IdInt 2) := NotJson "{" ]}.

(** User 1 is the admin; users 1 and 2 are allowed. *)
Definition admin_config : config_t :=
  {| allowed_user_ids := "1,2"; admin_user_ids := "1";
     user_budgets := "5.00,10"; budget_period := "monthly";
     guest_budget := 0.0 |}.

(** Users 1 and 2 are allowed, and there is one budget only. *)
Definition one_budget_config : config_t :=
  {| allowed_user_ids := "1,2"; admin_user_ids := "-";
     user_budgets := "5.00"; budget_period := "daily";
     guest_budget := 0.0 |}.

(** Everybody is allowed, with the budget 5.00. *)
Definition open_config : config_t :=
  {| allowed_user_ids := "*"; admin_user_ids := "-";
     user_budgets := "5.00,10"; budget_period := "all-time";
     guest_budget := 0.0 |}.

(** Users 1 and 2 are allowed, with all-time budgets 5.00 and 10. *)
Definition all_time_config : config_t :=
  {| allowed_user_ids := "1,2"; admin_user_ids := "-";
     user_budgets := "5.00,10"; budget_period := "all-time";
     guest_budget := 0.0 |}.

(** The current costs of [docstring_usage_without_all_time], and no
    history. *)
Definition costs_without_history : usage_t :=
  {| user_name := user_name docstring_usage;
     current_cost := current_cost docstring_usage_without_all_time;
     usage_history := {| chat_tokens := []; transcription_seconds := [];
                         number_images := [] |} |}.

Definition update_from_user_2 : update_t :=
  {| from_user_id := 2; from_user_name := "@second" |}.

Definition update_from_user_3 : update_t :=
  {| from_user_id := 3; from_user_name := "@third" |}.

(** A group of which user 2 is a member; the other ids are unknown to
    Telegram, which says so in its own words. *)
Definition group_with_user_2 (user : string) : reply member_status :=
  if String.eqb user "2" then Replied Member
  else Failed (BadRequest "Пользователь не найден").

Definition nothing_fails (text : string) : option telegram_error := None.

(** The bot constructed for the configuration of users 1 and 2. *)
Definition two_users_bot : bot_t :=
  match ChatGPTTelegramBot_init two_users_config with
  | Ok (bot, _) => bot
  | Raise _ => {| disallowed_message := ""; budget_limit_message := "" |}
  end.

(** ** The operating system that obliges

    Every directory can be made, every file opened, read and written.  A
    statement that names no operating system is about this one; one that
    holds whatever the operating system answers says so. *)

#[global] Instance obliging : os_t :=
  {| os_mkdir := fun _ _ => None;
     os_read := fun _ _ => None;
     os_write := fun _ _ _ => Written |}.

(** *** Others, for the examples *)

(** No file can be opened for writing. *)
Definition write_protected : os_t :=
  {| os_mkdir := fun _ _ => None;
     os_read := fun _ _ => None;
     os_write := fun _ _ _ => NotOpened (OSError "PermissionError") |}.

(** Files can be opened for writing, and nothing can be written. *)
Definition disk_full : os_t :=
  {| os_mkdir := fun _ _ => None;
     os_read := fun _ _ => None;
     os_write := fun _ _ _ => Broken (OSError "OSError") (NotJson "") |}.

(** A directory can be made in the working directory only. *)
Definition flat : os_t :=
  {| os_mkdir := fun dir _ =>
       if existsb (Ascii.eqb "/") (list_ascii_of_string dir)
       then Some (OSError "FileNotFoundError") else None;
     os_read := fun _ _ => None;
     os_write := fun _ _ _ => Written |}.

(** ** Tactics *)

Ltac run_update :=
  unfold bind, gets, modify, lift, ret, raise, read_cost, read_history,
    update_cost, update_history; cbn.

Ltac run_method :=
  unfold bind, gets, modify, lift, ret, raise, read_cost, read_history,
    update_cost, update_history, write_user_file; cbn.

(** ** Basic facts *)

Lemma date_eqb_eq (a b : date.t) : date.eqb a b = true <-> a = b.
Proof.
  destruct a as [y1 m1 d1], b as [y2 m2 d2]; unfold date.eqb; simpl.
  rewrite !andb_true_iff, !Z.eqb_eq. split.
  - intros [[-> ->] ->]. reflexivity.
  - intros H. injection H as -> -> ->. auto.
Qed.

Lemma date_eqb_refl (a : date.t) : date.eqb a a = true.
Proof. apply date_eqb_eq. reflexivity. Qed.

Lemma dict_get_In {V} k (d : dict V) v :
  dict_get k d = Some v -> exists k', In (k', v) d.
Proof.
  induction d as [|[k' v'] d IH]; cbn; [discriminate|].
  destruct (date.eqb k k').
  - intros [= ->]. eauto.
  - intros H. destruct (IH H) as [k'' ?]. eauto.
Qed.

Lemma dict_get_set_eq {V} k (v : V) d : dict_get k (dict_set k v d) = Some v.
Proof.
  induction d as [|[k' v'] d IH]; cbn.
  - rewrite date_eqb_refl. reflexivity.
  - destruct (date.eqb k k') eqn:E; cbn.
    + rewrite date_eqb_refl. reflexivity.
    + rewrite E. apply IH.
Qed.

Lemma dict_set_set {V} k (v0 v : V) d :
  dict_set k v (dict_set k v0 d) = dict_set k v d.
Proof.
  induction d as [|[k' v'] d IH]; cbn.
  - rewrite date_eqb_refl. reflexivity.
  - destruct (date.eqb k k') eqn:E; cbn.
    + rewrite date_eqb_refl. reflexivity.
    + rewrite E, IH. reflexivity.
Qed.

Lemma dict_set_forall {V} (P : V -> Prop) k v (d : dict V) :
  P v -> Forall (fun entry => P (snd entry)) d ->
  Forall (fun entry => P (snd entry)) (dict_set k v d).
Proof.
  intros Hv. induction 1 as [|[k' v'] d Hx Hd IH]; cbn.
  - constructor; [exact Hv | constructor].
  - destruct (date.eqb k k'); constructor; cbn; auto.
Qed.

Lemma list_index_sizes image_size i :
  list_index image_size sizes = Ok i -> i = 0 \/ i = 1 \/ i = 2.
Proof.
  unfold sizes, list_index.
  destruct (String.eqb "256x256" image_size); [intros [= <-]; auto |].
  destruct (String.eqb "512x512" image_size); [intros [= <-]; auto |].
  destruct (String.eqb "1024x1024" image_size); [intros [= <-]; auto |].
  intros H; discriminate H.
Qed.

Lemma list_index_absent x l : ~ In x l -> list_index x l = Raise ValueError.
Proof.
  induction l as [|y l IH]; cbn [list_index]; [reflexivity|].
  intros Hnot. destruct (String.eqb y x) eqn:E.
  - apply String.eqb_eq in E. subst. exfalso. apply Hnot. left. reflexivity.
  - rewrite IH; [reflexivity|]. intros Hin. apply Hnot. right. exact Hin.
Qed.

Lemma list_index_found x l i :
  list_index x l = Ok i -> str_in x l = true /\ 0 <= i.
Proof.
  unfold str_in. revert i.
  induction l as [|y l IH]; cbn [list_index existsb]; intros i Hi;
    [discriminate Hi|].
  rewrite (String.eqb_sym x y).
  destruct (String.eqb y x); [injection Hi as <-; split; [reflexivity | lia]|].
  cbn [orb]. destruct (list_index x l) as [j|]; [|discriminate Hi].
  injection Hi as <-. destruct (IH j eq_refl). split; [assumption | lia].
Qed.

Lemma increment_at_three i counts :
  (i = 0 \/ i = 1 \/ i = 2) -> length counts = 3%nat ->
  increment_at i counts = Ok (<[Z.to_nat i := nth (Z.to_nat i) counts 0 + 1]> counts).
Proof.
  intros Hi Hlen.
  destruct counts as [|a [|b [|c [|]]]]; try discriminate.
  destruct Hi as [-> | [-> | ->]]; reflexivity.
Qed.

(** [float] reads blanks around the number, exponents, underscores between
    digits, infinities, NaN and the digits of other scripts (here the
    Arabic-Indic 1 and 2), and nothing else. *)
Lemma py_float_examples :
  py_float "5.00" = Ok 5%float
  /\ py_float " 10" = Ok 10%float
  /\ py_float "1e1" = Ok 10%float
  /\ py_float "1_000.5" = Ok 1000.5%float
  /\ py_float "-.5E-1" = Ok (-0.05)%float
  /\ py_float "Infinity" = Ok infinity
  /\ py_float "-inf" = Ok neg_infinity
  /\ py_float "nan" = Ok nan
  /\ py_float "١٢" = Ok 12%float
  /\ py_float "1e400" = Ok infinity
  /\ py_float "" = Raise ValueError
  /\ py_float "1__0" = Raise ValueError
  /\ py_float "5,0" = Raise ValueError
  /\ py_float "0x10" = Raise ValueError
  /\ py_float "1e" = Raise ValueError.
Proof. vm_compute. repeat split. Qed.

(** A budget list written with blanks: the second user has 10.0. *)
Lemma get_user_budget_with_blanks :
  get_user_budget
    {| allowed_user_ids := "1,2"; admin_user_ids := "-";
       user_budgets := "5.00, 1e1"; budget_period := "daily";
       guest_budget := 0.0 |}
    {| from_user_id := 2; from_user_name := "@second" |}
  = Ok (Some 10%float).
Proof. vm_compute. reflexivity. Qed.

Lemma default_image_prices_parse :
  py_float_list (str_split ","%char default_image_prices)
  = Ok default_image_prices_list.
Proof. vm_compute. reflexivity. Qed.

Lemma initialize_all_time_cost_of_default (u : usage_t) :
  initialize_all_time_cost_of default_tokens_price default_image_prices
    default_minute_price u = Ok (history_cost u).
Proof.
  unfold initialize_all_time_cost_of. rewrite default_image_prices_parse.
  reflexivity.
Qed.

Lemma initialize_all_time_cost_run (w : world) :
  initialize_all_time_cost w = (Ok (history_cost (usage (fst w))), w).
Proof.
  unfold initialize_all_time_cost, bind, gets, lift.
  rewrite initialize_all_time_cost_of_default. reflexivity.
Qed.

(** ** What the methods do: closed forms

    Whatever the operating system, a method that can compute the cost of
    its event sets [self.usage] to the record with the event charged and
    recorded, and then writes the user file. *)

Lemma add_chat_tokens_ends {os : os_t} today tokens price t disk c :
  event_cost (ChatTokens tokens price) = Ok c ->
  add_chat_tokens today tokens price (t, disk)
  = write_user_file
      (set_usage (after_event today (ChatTokens tokens price) c (usage t)) t, disk).
Proof.
  intros [= <-]. unfold add_chat_tokens.
  unfold bind at 1. unfold read_cost at 1, gets at 1.
  unfold bind at 1. rewrite initialize_all_time_cost_run.
  destruct t as [uid dir path [name cc h]].
  unfold after_event, charge, record_event. cbn [fst snd usage current_cost usage_history].
  run_update.
  destruct (date.eqb today (last_update cc)); cbn.
  - destruct (dict_get today (chat_tokens h)); reflexivity.
  - destruct (date.month today =? date.month (last_update cc)); cbn;
     destruct (dict_get today (chat_tokens h)); reflexivity.
Qed.

Lemma add_transcription_seconds_ends {os : os_t} today seconds price t disk c :
  event_cost (TranscriptionSeconds seconds price) = Ok c ->
  add_transcription_seconds today seconds price (t, disk)
  = write_user_file
      (set_usage (after_event today (TranscriptionSeconds seconds price) c (usage t)) t,
       disk).
Proof.
  intros [= <-]. unfold add_transcription_seconds.
  unfold bind at 1. unfold read_cost at 1, gets at 1.
  unfold bind at 1. rewrite initialize_all_time_cost_run.
  destruct t as [uid dir path [name cc h]].
  unfold after_event, charge, record_event.
  cbn [fst snd usage current_cost usage_history].
  run_update.
  destruct (date.eqb today (last_update cc)); cbn.
  - destruct (dict_get today (transcription_seconds h)); reflexivity.
  - destruct (date.month today =? date.month (last_update cc)); cbn;
     destruct (dict_get today (transcription_seconds h)); reflexivity.
Qed.

Lemma add_image_request_ends {os : os_t} today size prices t disk c :
  well_formed (usage t) ->
  event_cost (ImageRequest size prices) = Ok c ->
  add_image_request today size prices (t, disk)
  = write_user_file
      (set_usage (after_event today (ImageRequest size prices) c (usage t)) t, disk).
Proof.
  intros Hwf Hc. unfold event_cost in Hc. unfold add_image_request.
  unfold bind at 1, lift at 1.
  destruct (list_index size sizes) as [i|] eqn:Hi; [|discriminate Hc].
  unfold bind at 1, lift at 1.
  destruct (getitem prices i) as [[s|x]|]; try discriminate Hc.
  injection Hc as ->.
  unfold bind at 1. unfold read_cost at 1, gets at 1.
  unfold bind at 1. rewrite initialize_all_time_cost_run.
  unfold after_event. cbn [fst snd].
  generalize (history_cost (usage t)) as init. intros init.
  destruct t as [uid dir path [name cc h]].
  unfold well_formed in Hwf.
  unfold charge, record_event. rewrite Hi.
  cbn [fst snd usage current_cost usage_history] in *.
  assert (Hinc : forall counts, dict_get today (number_images h) = Some counts ->
            increment_at i counts = Ok (<[Z.to_nat i := nth (Z.to_nat i) counts 0 + 1]> counts)).
  { intros counts Hget. apply increment_at_three; [eauto using list_index_sizes|].
    destruct (dict_get_In _ _ _ Hget) as [k' Hin].
    rewrite List.Forall_forall in Hwf. apply (Hwf _ Hin). }
  assert (Hnew : increment_at i [0; 0; 0] = Ok (<[Z.to_nat i := nth (Z.to_nat i) [0; 0; 0] 0 + 1]> [0; 0; 0])).
  { apply increment_at_three; [eauto using list_index_sizes | reflexivity]. }
  run_update.
  destruct (date.eqb today (last_update cc)); cbn.
  - destruct (dict_get today (number_images h)) as [counts|] eqn:Hget; cbn.
    + rewrite (Hinc _ eq_refl). reflexivity.
    + rewrite Hnew. cbn. rewrite dict_set_set. reflexivity.
  - destruct (date.month today =? date.month (last_update cc)); cbn;
      (destruct (dict_get today (number_images h)) as [counts|] eqn:Hget; cbn;
       [rewrite (Hinc _ eq_refl); reflexivity
       |rewrite Hnew; cbn; rewrite dict_set_set; reflexivity]).
Qed.

Lemma apply_event_ends {os : os_t} today e c t disk :
  well_formed (usage t) ->
  event_cost e = Ok c ->
  apply_event today e (t, disk)
  = write_user_file (set_usage (after_event today e c (usage t)) t, disk).
Proof.
  intros Hwf Hc. destruct e; cbn [apply_event].
  - apply add_chat_tokens_ends, Hc.
  - apply add_transcription_seconds_ends, Hc.
  - apply add_image_request_ends; assumption.
Qed.

(** Where the operating system writes the user file, the record is in the
    file. *)
Lemma write_user_file_written {os : os_t} t u disk :
  (forall u' disk', os_write (user_file t) u' disk' = Written) ->
  write_user_file (set_usage u t, disk) = (Ok tt, stored t u disk).
Proof.
  intros Hwrites. destruct t as [uid dir path u0]. unfold write_user_file.
  cbn [fst snd set_usage user_file usage] in *. rewrite Hwrites. reflexivity.
Qed.

Lemma write_user_file_obliging t u disk :
  write_user_file (set_usage u t, disk) = (Ok tt, stored t u disk).
Proof. apply write_user_file_written. reflexivity. Qed.

Lemma add_chat_tokens_run today tokens price t disk c :
  event_cost (ChatTokens tokens price) = Ok c ->
  add_chat_tokens today tokens price (t, disk)
  = (Ok tt, stored t (after_event today (ChatTokens tokens price) c (usage t)) disk).
Proof.
  intros Hc. rewrite (add_chat_tokens_ends _ _ _ _ _ _ Hc).
  apply write_user_file_obliging.
Qed.

Lemma add_transcription_seconds_run today seconds price t disk c :
  event_cost (TranscriptionSeconds seconds price) = Ok c ->
  add_transcription_seconds today seconds price (t, disk)
  = (Ok tt, stored t (after_event today (TranscriptionSeconds seconds price) c (usage t)) disk).
Proof.
  intros Hc. rewrite (add_transcription_seconds_ends _ _ _ _ _ _ Hc).
  apply write_user_file_obliging.
Qed.

Lemma add_image_request_run today size prices t disk c :
  well_formed (usage t) ->
  event_cost (ImageRequest size prices) = Ok c ->
  add_image_request today size prices (t, disk)
  = (Ok tt, stored t (after_event today (ImageRequest size prices) c (usage t)) disk).
Proof.
  intros Hwf Hc. rewrite (add_image_request_ends _ _ _ _ _ _ Hwf Hc).
  apply write_user_file_obliging.
Qed.

Lemma apply_event_run today e c t disk :
  well_formed (usage t) ->
  event_cost e = Ok c ->
  apply_event today e (t, disk)
  = (Ok tt, stored t (after_event today e c (usage t)) disk).
Proof.
  intros Hwf Hc. rewrite (apply_event_ends _ _ _ _ _ Hwf Hc).
  apply write_user_file_obliging.
Qed.

(** An event whose cost cannot be computed is refused with that exception
    and the state as it was, before the operating system is asked for
    anything. *)
Lemma apply_event_raises {os : os_t} today e x w :
  event_cost e = Raise x -> apply_event today e w = (Raise x, w).
Proof.
  destruct e as [tokens price|seconds price|size prices]; cbn [event_cost];
    try discriminate.
  intros Hc. cbn [apply_event]. unfold add_image_request.
  unfold bind at 1, lift at 1.
  destruct (list_index size sizes) as [i|]; [|congruence].
  unfold bind at 1, lift at 1.
  destruct (getitem prices i) as [[s|c]|]; try congruence.
  injection Hc as <-.
  unfold bind at 1. unfold read_cost at 1, gets at 1.
  unfold bind at 1. rewrite initialize_all_time_cost_run. reflexivity.
Qed.

(** An operating system that writes the user file whenever it is asked to
    is, to an event, the one that obliges. *)
Lemma apply_event_where_written {os : os_t} today e t disk :
  well_formed (usage t) ->
  (forall u disk', os_write (user_file t) u disk' = Written) ->
  @apply_event os today e (t, disk) = @apply_event obliging today e (t, disk).
Proof.
  intros Hwf Hwrites. destruct (event_cost e) as [c|x] eqn:Hc.
  - rewrite (apply_event_run _ _ _ _ _ Hwf Hc).
    rewrite (@apply_event_ends os _ _ _ _ _ Hwf Hc).
    apply write_user_file_written, Hwrites.
  - rewrite (@apply_event_raises os _ _ _ _ Hc).
    rewrite (@apply_event_raises obliging _ _ _ _ Hc). reflexivity.
Qed.

Lemma after_event_well_formed today e c u :
  well_formed u -> well_formed (after_event today e c u).
Proof.
  unfold well_formed. intros Hwf.
  destruct e as [tokens price|seconds price|size prices];
    unfold after_event, record_event; cbn [usage_history number_images];
    try exact Hwf.
  destruct (list_index size sizes) as [i|]; [|exact Hwf].
  cbn [set_number_images number_images].
  apply (dict_set_forall (fun counts => length counts = 3%nat)); [|exact Hwf].
  rewrite length_insert.
  destruct (dict_get today (number_images (usage_history u))) as [counts|] eqn:Hget;
    [|reflexivity].
  destruct (dict_get_In _ _ _ Hget) as [k' Hin].
  rewrite List.Forall_forall in Hwf. apply (Hwf _ Hin).
Qed.

Lemma after_events_well_formed today es cs u :
  well_formed u -> well_formed (after_events today es cs u).
Proof.
  revert cs u. induction es as [|e es IH]; intros [|c cs] u Hwf; cbn; auto.
  apply IH, after_event_well_formed, Hwf.
Qed.

Lemma stored_stored t u1 u2 disk :
  stored (set_usage u1 t) u2 (<[user_file t := json_dump u1]> disk)
  = stored t u2 disk.
Proof.
  unfold stored. destruct t as [uid dir path u]; cbn [set_usage user_id logs_dir user_file usage].
  rewrite insert_insert_eq. reflexivity.
Qed.

Lemma apply_events_run today es : forall cs e c t disk,
  well_formed (usage t) ->
  event_cost e = Ok c ->
  costs es cs ->
  apply_events today (e :: es) (t, disk)
  = (Ok tt, stored t (after_events today (e :: es) (c :: cs) (usage t)) disk).
Proof.
  induction es as [|e' es IH]; intros cs e c t disk Hwf Hc Hcs.
  - inversion Hcs; subst. cbn [apply_events after_events].
    unfold bind. rewrite (apply_event_run _ _ c) by assumption. reflexivity.
  - inversion Hcs as [|? c' ? cs' Hc' Hcs']; subst.
    change (apply_events today (e :: e' :: es))
      with (run! apply_event today e in apply_events today (e' :: es)).
    unfold bind at 1. rewrite (apply_event_run _ _ c) by assumption.
    unfold stored at 1.
    rewrite (IH cs' e' c') by (cbn; auto using after_event_well_formed).
    cbn [usage set_usage after_events].
    rewrite <- (stored_stored t (after_event today e c (usage t))). 
    destruct t as [uid dir path u]; reflexivity.
Qed.

Lemma get_current_cost_run today w :
  get_current_cost today w = (Ok (current_cost_report today (usage (fst w))), w).
Proof.
  unfold get_current_cost, current_cost_report.
  unfold bind at 1. unfold read_cost at 1, gets at 1.
  destruct (date.eqb today _);
    [|destruct (date.month today =? _)];
    unfold bind; rewrite initialize_all_time_cost_run; reflexivity.
Qed.

(** ** The period totals under a change of date *)

Lemma charge_new_day today cost init c :
  date.eqb today (last_update c) = false ->
  charge today cost init c
  = {| day := cost;
       month := if date.month today =? date.month (last_update c)
                then (month c + cost)%float else cost;
       all_time := Some (get_all_time c init + cost)%float;
       last_update := today |}.
Proof. intros H. unfold charge. rewrite H. reflexivity. Qed.

Lemma charge_last_update today cost init c :
  last_update (charge today cost init c) = today.
Proof.
  unfold charge. destruct (date.eqb today (last_update c)) eqn:E; [|reflexivity].
  apply date_eqb_eq in E. symmetry. exact E.
Qed.

Lemma charge_all_time today cost init c :
  all_time (charge today cost init c) = Some (get_all_time c init + cost)%float.
Proof. unfold charge. destruct (date.eqb today (last_update c)); reflexivity. Qed.

Lemma charge_day today cost init c :
  day (charge today cost init c)
  = if date.eqb today (last_update c) then (day c + cost)%float else cost.
Proof. unfold charge. destruct (date.eqb today (last_update c)); reflexivity. Qed.

Lemma next_day_not_same a b : next_day_same_month a b -> date.eqb b a = false.
Proof.
  intros (_ & _ & Hd). destruct (date.eqb b a) eqn:E; [|reflexivity].
  apply date_eqb_eq in E. subst. lia.
Qed.

Lemma docstring_usage_well_formed : well_formed docstring_usage.
Proof. unfold well_formed. cbn. repeat constructor. Qed.

Lemma fresh_usage_well_formed today name : well_formed (fresh_usage today name).
Proof. constructor. Qed.

(** C6. An event of any of the three kinds, dated the day after the last
    update and in the same month, is applied with success and leaves
    month = the month total before + the cost of the event, day = that
    cost alone (the day total before is dropped), and the date of the last
    update = today.  (The operating system is the one that obliges.) *)
Theorem C6_next_day_same_month today e c t (disk : files) :
  well_formed (usage t) ->
  event_cost e = Ok c ->
  next_day_same_month (last_update (current_cost (usage t))) today ->
  exists w',
    apply_event today e (t, disk) = (Ok tt, w')
    /\ month (current_cost (usage (fst w')))
       = (month (current_cost (usage t)) + c)%float
    /\ day (current_cost (usage (fst w'))) = c
    /\ last_update (current_cost (usage (fst w'))) = today.
Proof.
  intros Hwf Hc Hnext. eexists. split; [apply apply_event_run; eassumption|].
  unfold stored, after_event. cbn [fst usage set_usage current_cost].
  rewrite charge_new_day by (apply next_day_not_same, Hnext).
  destruct Hnext as (_ & Hm & _). rewrite Hm, Z.eqb_refl.
  cbn [month day last_update]. auto.
Qed.

Lemma C6_next_day_same_month_witness :
  well_formed (usage docstring_tracker)
  /\ next_day_same_month
       (last_update (current_cost (usage docstring_tracker))) march_15
  /\ Forall (fun e => exists c w',
               event_cost e = Ok c
               /\ apply_event march_15 e (docstring_tracker, ∅) = (Ok tt, w')
               /\ month (current_cost (usage (fst w'))) = (3.23 + c)%float
               /\ day (current_cost (usage (fst w'))) = c
               /\ last_update (current_cost (usage (fst w'))) = march_15)
            three_kinds.
Proof.
  assert (Hnext : next_day_same_month
                    (last_update (current_cost (usage docstring_tracker))) march_15).
  { unfold next_day_same_month. cbn. lia. }
  split; [exact docstring_usage_well_formed|]. split; [exact Hnext|].
  repeat constructor.
  - destruct (C6_next_day_same_month march_15 chat_1000 0.002%float
                docstring_tracker ∅ docstring_usage_well_formed eq_refl Hnext)
      as (w' & H). eexists _, w'. split; [reflexivity | exact H].
  - destruct (C6_next_day_same_month march_15 (TranscriptionSeconds 90 0.006)
                0.01%float
                docstring_tracker ∅ docstring_usage_well_formed eq_refl Hnext)
      as (w' & H). eexists _, w'. split; [reflexivity | exact H].
  - destruct (C6_next_day_same_month march_15 image_512 0.018%float
                docstring_tracker ∅ docstring_usage_well_formed eq_refl Hnext)
      as (w' & H). eexists _, w'. split; [reflexivity | exact H].
Defined.

(** When the date has moved on, the month total is continued exactly when
    the month numbers of today and of the last update agree; the years are
    not compared. *)
Lemma month_after_new_day today e c t (disk : files) :
  well_formed (usage t) ->
  event_cost e = Ok c ->
  today <> last_update (current_cost (usage t)) ->
  exists w',
    apply_event today e (t, disk) = (Ok tt, w')
    /\ month (current_cost (usage (fst w')))
       = if date.month today =? date.month (last_update (current_cost (usage t)))
         then (month (current_cost (usage t)) + c)%float else c.
Proof.
  intros Hwf Hc Hne. eexists. split; [apply apply_event_run; eassumption|].
  unfold stored, after_event. cbn [fst usage set_usage current_cost].
  rewrite charge_new_day; [reflexivity|].
  destruct (date.eqb today _) eqn:E; [|reflexivity].
  apply date_eqb_eq in E. contradiction.
Qed.

(** C2 (the code at the failing input). The ledger of the class docstring
    was last updated on 2023-03-14 with a month total of 3.23.  On
    2024-03-14 -- another year, the same month number -- a chat event of
    cost 0.002 is added to that total (3.23 + 0.002) instead of starting
    the month at 0.002, and [get_current_cost] still reports 3.23 for the
    month: both compare [today.month] with [last_update.month].
    [get_current_token_usage], which matches the year and the month of
    the history keys, counts no token for that month.  (The operating
    system is the one that obliges.) *)
Theorem C2_same_month_number_other_year :
  year_month march_14_of_2024
    <> year_month (last_update (current_cost docstring_usage))
  /\ (exists w',
        add_chat_tokens march_14_of_2024 1000 0.002 (docstring_tracker, ∅)
          = (Ok tt, w')
        /\ month (current_cost (usage (fst w'))) = (3.23 + 0.002)%float
        /\ month (current_cost (usage (fst w'))) <> 0.002%float)
  /\ (exists r,
        get_current_cost march_14_of_2024 (docstring_tracker, ∅)
          = (Ok r, (docstring_tracker, ∅))
        /\ cost_month r = 3.23%float)
  /\ get_current_token_usage march_14_of_2024 (docstring_tracker, ∅)
     = (Ok (0, 0), (docstring_tracker, ∅)).
Proof.
  split; [intros H; discriminate H|]. split; [|split].
  - eexists. split; [apply (add_chat_tokens_run _ _ _ _ _ _ eq_refl)|].
    split; [reflexivity|].
    intros H. apply (f_equal (fun x => (x <? 1)%float)) in H.
    vm_compute in H. discriminate H.
  - eexists. split; [apply get_current_cost_run|]. reflexivity.
  - reflexivity.
Qed.

(** ** Sequences of events of one day *)

(** Once the ledger is dated today, every further event of today adds its
    cost to the day total and to the all-time total. *)
Lemma after_events_same_day today es : forall cs u a,
  costs es cs ->
  last_update (current_cost u) = today ->
  all_time (current_cost u) = Some a ->
  let u' := after_events today es cs u in
  day (current_cost u') = fold_left PrimFloat.add cs (day (current_cost u))
  /\ all_time (current_cost u') = Some (fold_left PrimFloat.add cs a)
  /\ last_update (current_cost u') = today.
Proof.
  induction es as [|e es IH]; intros cs u a Hcs;
    inversion Hcs as [|? c ? cs' Hc Hcs']; subst; intros Hlast Hall;
    cbn [after_events fold_left].
  - auto.
  - specialize (IH cs' (after_event today e c u)
                  (get_all_time (current_cost u) (history_cost u) + c)%float Hcs').
    cbn [after_event current_cost] in IH.
    rewrite charge_last_update, charge_all_time, charge_day in IH.
    rewrite Hlast, date_eqb_refl in IH.
    unfold get_all_time in IH. rewrite Hall in IH.
    apply IH; reflexivity.
Qed.

Lemma entries_after_event today e c u :
  entries_on today (after_event today e c u) = note_event (entries_on today u) e.
Proof.
  unfold entries_on, after_event, note_event. cbn [usage_history].
  destruct e as [n price|s price|size prices]; cbn [record_event].
  - cbn [set_chat_tokens chat_tokens transcription_seconds number_images].
    rewrite dict_get_set_eq. reflexivity.
  - cbn [set_transcription_seconds chat_tokens transcription_seconds number_images].
    rewrite dict_get_set_eq. reflexivity.
  - destruct (list_index size sizes) as [i|]; [|reflexivity].
    cbn [set_number_images chat_tokens transcription_seconds number_images].
    rewrite dict_get_set_eq. reflexivity.
Qed.

Lemma entries_after_events today es : forall cs u,
  costs es cs ->
  entries_on today (after_events today es cs u)
  = fold_left note_event es (entries_on today u).
Proof.
  induction es as [|e es IH]; intros cs u Hcs;
    inversion Hcs as [|? c ? cs' Hc Hcs']; subst; cbn [after_events fold_left].
  - reflexivity.
  - rewrite (IH cs' _ Hcs'), entries_after_event. reflexivity.
Qed.

Lemma half_minute_costs : costs [half_minute] [0.0]%float.
Proof. repeat constructor. Qed.

Lemma two_half_minutes_costs : costs [half_minute; half_minute] [0.0; 0.0]%float.
Proof. repeat constructor. Qed.

Lemma two_half_minutes_run :
  apply_events march_14 [half_minute; half_minute] (fresh_tracker, ∅)
  = (Ok tt,
     stored fresh_tracker
       (after_events march_14 [half_minute; half_minute] [0.0; 0.0]%float
          (usage fresh_tracker)) ∅).
Proof.
  apply apply_events_run.
  - apply fresh_usage_well_formed.
  - reflexivity.
  - exact half_minute_costs.
Qed.

(** C1 (as amended). A non-empty sequence of same-day events, each with a
    computable cost, is applied with success; afterwards the day total is
    the costs of the events added left to right, on top of the day total
    the ledger had when it was already dated today; and today's entry of
    each history series is the accumulation of the quantities of the
    events of that series.  (The operating system is the one that
    obliges.) *)
Theorem C1_same_day_total today e es c cs t (disk : files) :
  well_formed (usage t) ->
  event_cost e = Ok c ->
  costs es cs ->
  exists w',
    apply_events today (e :: es) (t, disk) = (Ok tt, w')
    /\ day (current_cost (usage (fst w')))
       = (if date.eqb today (last_update (current_cost (usage t)))
          then fold_left PrimFloat.add (c :: cs) (day (current_cost (usage t)))
          else fold_left PrimFloat.add cs c)
    /\ entries_on today (usage (fst w'))
       = fold_left note_event (e :: es) (entries_on today (usage t)).
Proof.
  intros Hwf Hc Hcs. eexists. split; [apply apply_events_run; eassumption|].
  unfold stored. cbn [fst usage set_usage]. split.
  - cbn [after_events].
    destruct (after_events_same_day today es cs
                (after_event today e c (usage t))
                (get_all_time (current_cost (usage t)) (history_cost (usage t)) + c)%float
                Hcs) as (Hday & _ & _).
    + apply charge_last_update.
    + apply charge_all_time.
    + rewrite Hday. cbn [after_event current_cost]. rewrite charge_day.
      destruct (date.eqb today _); reflexivity.
  - apply entries_after_events. constructor; assumption.
Qed.

Lemma C1_same_day_total_witness :
  well_formed (usage fresh_tracker)
  /\ event_cost half_minute = Ok 0.0%float
  /\ costs [half_minute] [0.0]%float
  /\ exists w',
       apply_events march_14 [half_minute; half_minute] (fresh_tracker, ∅)
       = (Ok tt, w')
       /\ day (current_cost (usage (fst w'))) = (0.0 + 0.0 + 0.0)%float
       /\ entries_on march_14 (usage (fst w')) = (None, Some 60%float, None).
Proof.
  split; [apply fresh_usage_well_formed|]. split; [reflexivity|].
  split; [exact half_minute_costs|].
  destruct (C1_same_day_total march_14 half_minute [half_minute] 0.0%float
              [0.0%float] fresh_tracker ∅ (fresh_usage_well_formed _ _) eq_refl
              half_minute_costs)
    as (w' & Hrun & Hday & Hentries).
  exists w'. split; [exact Hrun|]. split; [exact Hday | exact Hentries].
Defined.

(** Two transcriptions of 30 seconds at 0.006 per minute on a fresh ledger
    cost 0.0 each (0.003 rounded to two decimals), so the day total is 0.0;
    the 60 seconds in today's history cost 0.01 when re-derived. *)
Lemma C1_counterexample :
  ~ (forall w' cs,
       apply_events march_14 [half_minute; half_minute] (fresh_tracker, ∅)
       = (Ok tt, w') ->
       costs [half_minute; half_minute] cs ->
       day (current_cost (usage (fst w'))) = float_sum cs
       /\ day (current_cost (usage (fst w')))
          = history_cost_on march_14 (usage (fst w'))).
Proof.
  intros H.
  destruct (H _ _ two_half_minutes_run two_half_minutes_costs) as [_ Hd].
  apply (f_equal (fun x => (x <? 0.005)%float)) in Hd.
  vm_compute in Hd. discriminate Hd.
Qed.

(** ** The all-time total *)

Lemma after_dated_events_well_formed des : forall cs u,
  well_formed u -> well_formed (after_dated_events des cs u).
Proof.
  induction des as [|[d e] des IH]; intros [|c cs] u Hwf; cbn; auto.
  apply IH, after_event_well_formed, Hwf.
Qed.

(** Where the operating system writes the user file whenever it is asked
    to, a sequence of events with computable costs goes through. *)
Lemma apply_dated_events_run {os : os_t} des : forall cs d e c t disk,
  well_formed (usage t) ->
  event_cost e = Ok c ->
  costs (map snd des) cs ->
  (forall u disk', os_write (user_file t) u disk' = Written) ->
  apply_dated_events ((d, e) :: des) (t, disk)
  = (Ok tt, stored t (after_dated_events ((d, e) :: des) (c :: cs) (usage t)) disk).
Proof.
  induction des as [|[d' e'] des IH]; intros cs d e c t disk Hwf Hc Hcs Hwrites.
  - inversion Hcs; subst. cbn [apply_dated_events after_dated_events].
    unfold bind. rewrite (apply_event_ends _ _ c) by assumption.
    rewrite (write_user_file_written _ _ _ Hwrites). reflexivity.
  - cbn [map snd] in Hcs. inversion Hcs as [|? c' ? cs' Hc' Hcs']; subst.
    change (apply_dated_events ((d, e) :: (d', e') :: des))
      with (run! apply_event d e in apply_dated_events ((d', e') :: des)).
    unfold bind at 1. rewrite (apply_event_ends _ _ c) by assumption.
    rewrite (write_user_file_written _ _ _ Hwrites).
    unfold stored at 1.
    rewrite (IH cs' d' e' c');
      [| cbn; auto using after_event_well_formed | assumption | assumption
       | destruct t; exact Hwrites ].
    cbn [usage set_usage after_dated_events].
    rewrite <- (stored_stored t (after_event d e c (usage t))).
    destruct t as [uid dir path u]; reflexivity.
Qed.

(** Events of one day are events that come in on the same date. *)
Lemma apply_events_dated {os : os_t} today es (w : world) :
  apply_events today es w = apply_dated_events (map (pair today) es) w.
Proof.
  revert w. induction es as [|e es IH]; intros w; cbn [apply_events map
    apply_dated_events]; [reflexivity|].
  unfold bind. destruct (apply_event today e w) as [[[]|x] w1]; [apply IH|reflexivity].
Qed.

(** Every event adds its cost to the all-time total, whatever its date. *)
Lemma after_dated_events_all_time des : forall cs u a,
  costs (map snd des) cs ->
  all_time (current_cost u) = Some a ->
  all_time (current_cost (after_dated_events des cs u))
  = Some (fold_left PrimFloat.add cs a).
Proof.
  induction des as [|[d e] des IH]; intros cs u a Hcs; cbn [map snd] in Hcs;
    inversion Hcs as [|? c ? cs' Hc Hcs']; subst; intros Hall;
    cbn [after_dated_events fold_left].
  - exact Hall.
  - apply (IH cs' _ _ Hcs'). cbn [after_event current_cost].
    rewrite charge_all_time. unfold get_all_time. rewrite Hall. reflexivity.
Qed.

(** C7 (as amended). A non-empty sequence of events with computable
    costs, on whatever dates they come in, goes through where the
    operating system writes the user file whenever it is asked to;
    afterwards the all-time cost is the costs of the events added one
    after the other to the all-time cost before; where that key was
    absent, to the cost of the whole history as it was before the first of
    these events went in. *)
Theorem C7_all_time_incremental {os : os_t} today e des c cs t (disk : files) :
  well_formed (usage t) ->
  event_cost e = Ok c ->
  costs (map snd des) cs ->
  (forall u disk', os_write (user_file t) u disk' = Written) ->
  exists w',
    apply_dated_events ((today, e) :: des) (t, disk) = (Ok tt, w')
    /\ all_time (current_cost (usage (fst w')))
       = Some (fold_left PrimFloat.add (c :: cs)
                 match all_time (current_cost (usage t)) with
                 | Some a => a
                 | None => history_cost (usage t)
                 end).
Proof.
  intros Hwf Hc Hcs Hwrites. eexists.
  split; [apply apply_dated_events_run; eassumption|].
  unfold stored. cbn [fst usage set_usage after_dated_events fold_left].
  apply (after_dated_events_all_time des cs _ _ Hcs).
  cbn [after_event current_cost]. apply charge_all_time.
Qed.

Lemma three_kinds_tail_costs :
  costs [TranscriptionSeconds 90 0.006; image_512] [0.01; 0.018]%float.
Proof. repeat constructor. Qed.

(** Three events on three dates, the last of them dated before the others,
    on a record without the key "all_time". *)
Lemma C7_all_time_incremental_witness :
  well_formed docstring_usage_without_all_time
  /\ event_cost chat_1000 = Ok 0.002%float
  /\ costs [TranscriptionSeconds 90 0.006; image_512] [0.01; 0.018]%float
  /\ (forall u disk',
        os_write (user_file docstring_tracker) u disk' = Written)
  /\ exists w',
       apply_dated_events
         [(march_15, chat_1000);
          (march_14_of_2024, TranscriptionSeconds 90 0.006);
          (march_13, image_512)]
         (set_usage docstring_usage_without_all_time docstring_tracker, ∅)
       = (Ok tt, w')
       /\ all_time (current_cost (usage (fst w')))
          = Some (history_cost docstring_usage + 0.002 + 0.01 + 0.018)%float.
Proof.
  split; [exact docstring_usage_well_formed|]. split; [reflexivity|].
  split; [exact three_kinds_tail_costs|].
  assert (Hwrites : forall u disk',
            os_write (user_file docstring_tracker) u disk' = Written)
    by (intros u disk'; reflexivity).
  split; [exact Hwrites|].
  destruct (C7_all_time_incremental march_15 chat_1000
              [(march_14_of_2024, TranscriptionSeconds 90 0.006);
               (march_13, image_512)]
              0.002%float [0.01; 0.018]%float
              (set_usage docstring_usage_without_all_time docstring_tracker) ∅
              docstring_usage_well_formed eq_refl three_kinds_tail_costs
              Hwrites)
    as (w' & Hrun & Hall).
  exists w'. split; [exact Hrun | exact Hall].
Defined.

(** After the two transcriptions of 30 seconds on a fresh ledger the
    all-time cost is 0.0 + 0.0 + 0.0, and the cost of the whole history
    (60 seconds) is 0.01. *)
Lemma C7_counterexample :
  ~ (forall w',
       apply_events march_14 [half_minute; half_minute] (fresh_tracker, ∅)
       = (Ok tt, w') ->
       all_time (current_cost (usage (fst w')))
       = Some (history_cost (usage (fst w')))).
Proof.
  intros H. specialize (H _ two_half_minutes_run).
  apply (f_equal (fun x => match x with
                           | Some a => (a <? 0.005)%float
                           | None => false
                           end)) in H.
  vm_compute in H. discriminate H.
Qed.

(** ** Image requests *)

(** C4. An image size that is none of "256x256", "512x512", "1024x1024"
    makes [add_image_request] raise [ValueError] (the lookup
    [sizes.index(image_size)] fails) and leaves the whole state -- the
    current costs with the date of the last update, the history and the
    user file -- as it was, whatever the operating system. *)
Theorem C4_unknown_size_rejected {os : os_t} today image_size image_prices
    (w : world) :
  ~ In image_size sizes ->
  add_image_request today image_size image_prices w = (Raise ValueError, w).
Proof.
  intros Hnot.
  apply (apply_event_raises today (ImageRequest image_size image_prices)).
  cbn [event_cost]. rewrite (list_index_absent _ _ Hnot). reflexivity.
Qed.

Lemma C4_unknown_size_rejected_witness :
  ~ In "2048x2048" sizes
  /\ add_image_request march_15 "2048x2048" (PricesList default_image_prices_list)
       (docstring_tracker, ∅)
     = (Raise ValueError, (docstring_tracker, ∅)).
Proof.
  assert (H : ~ In "2048x2048" sizes).
  { cbn. intros [H | [H | [H | []]]]; discriminate H. }
  split; [exact H|].
  exact (C4_unknown_size_rejected march_15 "2048x2048"
           (PricesList default_image_prices_list) (docstring_tracker, ∅) H).
Defined.

(** C3 (the code at the failing input). With the price list given as the
    string "0.016,0.018,0.02" -- the default of the parameter --
    [image_prices[1]] is the character "." and adding it to the all-time
    cost raises [TypeError]; nothing is charged or recorded.  This is so
    whatever the operating system. *)
Theorem C3_prices_as_string_raise {os : os_t} today (w : world) :
  add_image_request today "512x512" (PricesStr "0.016,0.018,0.02") w
  = (Raise TypeError, w).
Proof.
  apply (apply_event_raises today
           (ImageRequest "512x512" (PricesStr "0.016,0.018,0.02"))).
  reflexivity.
Qed.

(** With the prices as the list [0.016, 0.018, 0.02], the request for
    "512x512" costs 0.018, the price at index 1, and increments index 1 of
    today's counters (created as [0, 0, 0] when absent). *)
Lemma image_request_with_price_list today t (disk : files) :
  well_formed (usage t) ->
  let counts := match dict_get today (number_images (usage_history (usage t))) with
                | Some counts => counts
                | None => [0; 0; 0]
                end in
  event_cost image_512 = Ok 0.018%float
  /\ exists w',
       apply_event today image_512 (t, disk) = (Ok tt, w')
       /\ current_cost (usage (fst w'))
          = charge today 0.018 (history_cost (usage t)) (current_cost (usage t))
       /\ dict_get today (number_images (usage_history (usage (fst w'))))
          = Some (<[1%nat := nth 1 counts 0 + 1]> counts).
Proof.
  intros Hwf counts. split; [reflexivity|].
  eexists. split; [apply (apply_event_run _ _ 0.018%float); [assumption|reflexivity]|].
  split; [reflexivity|].
  unfold stored, after_event, image_512, record_event.
  cbn [fst usage set_usage usage_history].
  change (list_index "512x512" sizes) with (@Ok Z 1).
  cbn [set_number_images number_images].
  rewrite dict_get_set_eq. reflexivity.
Qed.

(** ** The user file *)

Lemma UsageTracker_init_absent {os : os_t} today uid name dir (disk : files) :
  disk !! usage_path dir uid = None ->
  UsageTracker_init today uid name dir disk
  = match os_mkdir dir disk with
    | Some x => (Raise x, disk)
    | None =>
        (Ok {| user_id := uid; logs_dir := dir; user_file := usage_path dir uid;
               usage := fresh_usage today name |}, disk)
    end.
Proof.
  intros H. unfold UsageTracker_init, bind, gets, request. rewrite H.
  destruct (os_mkdir dir disk); reflexivity.
Qed.

Lemma UsageTracker_init_present {os : os_t} today uid name dir (disk : files) f :
  disk !! usage_path dir uid = Some f ->
  UsageTracker_init today uid name dir disk
  = match os_read (usage_path dir uid) disk with
    | Some x => (Raise x, disk)
    | None =>
        match json_load f with
        | Ok u =>
            (Ok {| user_id := uid; logs_dir := dir;
                   user_file := usage_path dir uid; usage := u |}, disk)
        | Raise x => (Raise x, disk)
        end
    end.
Proof.
  intros H. unfold UsageTracker_init, bind, gets, lift, request. rewrite H.
  destruct (os_read (usage_path dir uid) disk); [reflexivity|].
  destruct (json_load f); reflexivity.
Qed.

(** C5 (as amended). The constructor looks at the user file, whatever the
    operating system.  When there is none, it has the directory of the
    logs made: an exception of [mkdir] (the parent is missing, the name is
    taken by a file, ...) goes to the caller; otherwise the tracker starts
    from a fresh record (day, month and all-time cost 0.0, last update
    today, empty history).  When there is one, it is opened and read: an
    exception of the operating system goes to the caller; a file that is
    not JSON is not taken as absent, the constructor raises
    [JSONDecodeError]; a file holding a usage record gives that record.
    No file has been written in any of these cases. *)
Theorem C5_constructor_by_file {os : os_t} today uid name dir (disk : files) :
  UsageTracker_init today uid name dir disk
  = match disk !! usage_path dir uid with
    | None =>
        match os_mkdir dir disk with
        | Some x => (Raise x, disk)
        | None =>
            (Ok {| user_id := uid; logs_dir := dir;
                   user_file := usage_path dir uid;
                   usage :=
                     {| user_name := name;
                        current_cost := {| day := 0.0; month := 0.0;
                                           all_time := Some 0.0%float;
                                           last_update := today |};
                        usage_history := {| chat_tokens := [];
                                            transcription_seconds := [];
                                            number_images := [] |} |} |}, disk)
        end
    | Some f =>
        match os_read (usage_path dir uid) disk with
        | Some x => (Raise x, disk)
        | None =>
            match f with
            | NotJson _ => (Raise JSONDecodeError, disk)
            | JsonDocument u =>
                (Ok {| user_id := uid; logs_dir := dir;
                       user_file := usage_path dir uid; usage := u |}, disk)
            end
        end
    end.
Proof.
  destruct (disk !! usage_path dir uid) as [f|] eqn:E.
  - rewrite (UsageTracker_init_present _ _ _ _ _ _ E).
    destruct (os_read _ _); [reflexivity|]. destruct f; reflexivity.
  - apply UsageTracker_init_absent, E.
Qed.

(** Where the directory of the logs cannot be made, the constructor
    raises what [mkdir] raises. *)
Lemma constructor_without_directory :
  @UsageTracker_init flat march_14 (IdInt 1) "@user_name"
    "missing_parent/usage_logs" ∅
  = (Raise (OSError "FileNotFoundError"), ∅).
Proof. reflexivity. Qed.

(** A user file that is not JSON: the constructor raises. *)
Lemma C5_counterexample :
  ~ (exists t disk',
       UsageTracker_init march_14 (IdInt 1) "@user_name" default_logs_dir
         {[ usage_path default_logs_dir (IdInt 1) := NotJson "{" ]}
       = (Ok t, disk')
       /\ usage t = fresh_usage march_14 "@user_name").
Proof.
  intros (t & disk' & H & _).
  rewrite (UsageTracker_init_present _ _ _ _ _ (NotJson "{")) in H.
  - discriminate H.
  - apply lookup_singleton_eq.
Qed.

(** C10. [get_current_cost] returns its three figures and leaves the state
    as it was, the tracker and the files alike: a day or month reported as
    0.0 after the date has moved on is not stored and the date of the last
    update stays, and a missing "all_time" is computed from the history for
    the answer only. *)
Theorem C10_get_current_cost_reads_only today (w : world) :
  exists r,
    get_current_cost today w = (Ok r, w)
    /\ cost_today r
       = (if date.eqb today (last_update (current_cost (usage (fst w))))
          then day (current_cost (usage (fst w))) else 0.0%float)
    /\ cost_month r
       = (if date.eqb today (last_update (current_cost (usage (fst w))))
          then month (current_cost (usage (fst w)))
          else if date.month today
                  =? date.month (last_update (current_cost (usage (fst w))))
               then month (current_cost (usage (fst w))) else 0.0%float)
    /\ cost_all_time r
       = match all_time (current_cost (usage (fst w))) with
         | Some x => x
         | None => history_cost (usage (fst w))
         end.
Proof.
  eexists. split; [apply get_current_cost_run|]. repeat split.
Qed.

Lemma keeps_bind {A B} (m : M world A) (k : A -> M world B) :
  keeps_fields m -> (forall a, keeps_fields (k a)) -> keeps_fields (bind m k).
Proof.
  intros Hm Hk w. unfold bind. specialize (Hm w).
  destruct (m w) as [[a|x] w1]; cbn [fst snd] in *; [|exact Hm].
  destruct (Hk a w1) as (H1 & H2 & H3), Hm as (G1 & G2 & G3).
  repeat split; congruence.
Qed.

Lemma keeps_pure {A} (m : M world A) :
  (forall w, snd (m w) = w) -> keeps_fields m.
Proof. intros H w. rewrite H. auto. Qed.

Lemma keeps_update_cost f : keeps_fields (update_cost f).
Proof. intros [[uid dir path u] disk]. cbn. auto. Qed.

Lemma keeps_update_history f : keeps_fields (update_history f).
Proof. intros [[uid dir path u] disk]. cbn. auto. Qed.

Lemma keeps_write_user_file {os : os_t} : keeps_fields write_user_file.
Proof.
  intros [[uid dir path u] disk]. unfold write_user_file. cbn [fst snd user_file usage].
  destruct (os_write path u disk); cbn; auto.
Qed.

Lemma keeps_initialize_all_time_cost : keeps_fields initialize_all_time_cost.
Proof.
  apply keeps_pure. intros w. rewrite initialize_all_time_cost_run. reflexivity.
Qed.

Ltac keeps_step :=
  first
    [ apply keeps_bind; [|intros ?]
    | apply keeps_update_cost
    | apply keeps_update_history
    | apply keeps_write_user_file
    | apply keeps_initialize_all_time_cost
    | apply keeps_pure; intros ?; reflexivity
    | match goal with
      | |- keeps_fields (if ?b then _ else _) => destruct b
      | |- keeps_fields (match ?x with _ => _ end) => destruct x
      end ].

(** Every method call, returning or raising, leaves the identity of the
    tracker alone. *)
Lemma keeps_apply_event {os : os_t} today e : keeps_fields (apply_event today e).
Proof.
  destruct e; cbn [apply_event];
    unfold add_chat_tokens, add_transcription_seconds, add_image_request,
      read_cost, read_history;
    repeat keeps_step.
Qed.

Lemma reachable_user_file {os : os_t} w :
  reachable w -> user_file (fst w) = usage_path (logs_dir (fst w)) (user_id (fst w)).
Proof.
  induction 1 as [today uid name dir disk t disk' Hnew
                 |today e w r w' _ IH Hrun
                 |today w r w' _ IH Hrun].
  - destruct (disk !! usage_path dir uid) as [f|] eqn:E.
    + rewrite (UsageTracker_init_present _ _ _ _ _ _ E) in Hnew.
      destruct (os_read _ _); [discriminate Hnew|].
      destruct (json_load f); inversion Hnew; reflexivity.
    + rewrite (UsageTracker_init_absent _ _ _ _ _ E) in Hnew.
      destruct (os_mkdir _ _); inversion Hnew; reflexivity.
  - destruct (keeps_apply_event today e w) as (H1 & H2 & H3).
    rewrite Hrun in *. cbn [fst snd] in *. congruence.
  - rewrite get_current_cost_run in Hrun. congruence.
Qed.

(** C9. For a state the ledger's operations lead to, once [self.usage] is
    written to the user file, a tracker constructed anew for the same user
    reads that record back: its history (all three series) and the answer
    of [get_current_cost], on any day, are those of the original.  (The
    JSON text in between is not represented: a file is what [json.load]
    makes of it.  The operating system is the one that obliges.) *)
Theorem C9_reload_after_dump (w : world) today name :
  reachable w ->
  let t := fst w in
  let disk' := snd (snd (write_user_file w)) in
  exists t',
    UsageTracker_init today (user_id t) name (logs_dir t) disk' = (Ok t', disk')
    /\ usage_history (usage t') = usage_history (usage t)
    /\ forall day, fst (get_current_cost day (t', disk'))
                   = fst (get_current_cost day w).
Proof.
  intros Hreach t disk'. pose proof (reachable_user_file w Hreach) as Hpath.
  destruct w as [t0 disk]. cbn [fst snd] in *. subst t.
  exists t0.
  assert (Hget : disk' !! usage_path (logs_dir t0) (user_id t0)
                 = Some (JsonDocument (usage t0))).
  { subst disk'. unfold write_user_file, modify. cbn [fst snd].
    rewrite <- Hpath. apply lookup_insert_eq. }
  rewrite (UsageTracker_init_present _ _ _ _ _ _ Hget). cbn [json_load].
  split; [|split].
  - destruct t0 as [uid dir path u]. cbn [user_id logs_dir user_file usage] in *.
    rewrite Hpath. reflexivity.
  - reflexivity.
  - intros d. rewrite !get_current_cost_run. reflexivity.
Qed.

Lemma C9_reload_after_dump_witness :
  exists w,
    reachable w
    /\ usage_history (usage (fst w))
       = {| chat_tokens := [(march_14, 1000)]; transcription_seconds := [];
            number_images := [] |}
    /\ exists t',
         UsageTracker_init march_15 (IdInt 1) "@renamed" default_logs_dir
           (snd (snd (write_user_file w)))
         = (Ok t', snd (snd (write_user_file w)))
         /\ usage_history (usage t') = usage_history (usage (fst w))
         /\ forall day, fst (get_current_cost day (t', snd (snd (write_user_file w))))
                        = fst (get_current_cost day w).
Proof.
  assert (Hreach : reachable
            (stored fresh_tracker
               (after_event march_14 chat_1000 0.002%float (usage fresh_tracker)) ∅)).
  { apply (reachable_event march_14 chat_1000 (fresh_tracker, ∅) (Ok tt)).
    - apply (reachable_new march_14 (IdInt 1) "@user_name" default_logs_dir ∅).
      reflexivity.
    - apply (apply_event_run march_14 chat_1000 0.002%float);
        [apply fresh_usage_well_formed | reflexivity]. }
  eexists. split; [exact Hreach|]. split; [reflexivity|].
  exact (C9_reload_after_dump _ march_15 "@renamed" Hreach).
Defined.

(** ** The budget gate *)

Lemma ensure_tracker_present {os : os_t} today key name (bw : bot_world) t :
  fst bw !! key = Some t -> ensure_tracker today key name bw = (Ok tt, bw).
Proof. intros H. unfold ensure_tracker. rewrite H. reflexivity. Qed.

Lemma ensure_tracker_registers {os : os_t} today key name (bw bw' : bot_world) :
  ensure_tracker today key name bw = (Ok tt, bw') ->
  exists t, fst bw' !! key = Some t.
Proof.
  unfold ensure_tracker. destruct (fst bw !! key) as [t|] eqn:E.
  - intros [= <-]. eauto.
  - destruct (UsageTracker_init _ _ _ _ _) as [[t|x] disk]; [|discriminate].
    intros [= <-]. exists t. cbn [fst]. apply lookup_insert_eq.
Qed.

Lemma on_tracker_get_current_cost today key (bw : bot_world) t :
  fst bw !! key = Some t ->
  on_tracker key (get_current_cost today) bw
  = (Ok (current_cost_report today (usage t)), bw).
Proof.
  intros H. unfold on_tracker. rewrite H, get_current_cost_run.
  cbn [fst snd usage]. rewrite (insert_id _ _ _ H). destruct bw; reflexivity.
Qed.

(** The budget of a user who is on the allow-list and not an admin: the
    entry of the budget list at the user's position in the allow-list. *)
Lemma get_user_budget_allowed config update i b A :
  is_admin config update = false ->
  user_budgets config <> "*" ->
  allowed_user_ids config <> "*" ->
  list_index (pretty (from_user_id update))
             (str_split ","%char (allowed_user_ids config)) = Ok i ->
  nth_error (str_split ","%char (user_budgets config)) (Z.to_nat i) = Some b ->
  py_float b = Ok A ->
  get_user_budget config update = Ok (Some A).
Proof.
  intros Hadmin Hb Ha Hi Hnth HA. unfold get_user_budget.
  rewrite Hadmin. apply String.eqb_neq in Hb, Ha. rewrite Hb, Ha.
  cbn [orb].
  destruct (list_index_found _ _ _ Hi) as [Hin Hpos].
  rewrite Hin, Hi.
  assert (Hlen : (Z.of_nat (length (str_split ","%char (user_budgets config))) <=? i)
                 = false).
  { apply Z.leb_gt.
    assert (Hlt : (Z.to_nat i < length (str_split ","%char (user_budgets config)))%nat).
    { apply List.nth_error_Some. rewrite Hnth. discriminate. }
    lia. }
  rewrite Hlen, Hnth, HA. reflexivity.
Qed.

Lemma budget_of_own_allowance {os : os_t} today config update
    (bw bw' : bot_world) A field t :
  get_user_budget config update = Ok (Some A) ->
  budget_cost_map (budget_period config) = Ok field ->
  ensure_tracker today (IdInt (from_user_id update)) (from_user_name update) bw
    = (Ok tt, bw') ->
  fst bw' !! IdInt (from_user_id update) = Some t ->
  get_remaining_budget today config update bw
    = (Ok (A - field (current_cost_report today (usage t)))%float, bw')
  /\ is_within_budget today config update bw
    = (Ok (0 <? A - field (current_cost_report today (usage t)))%float, bw').
Proof.
  intros Hbudget Hfield Hensure Ht.
  assert (Hrem : forall bw0, ensure_tracker today (IdInt (from_user_id update))
                     (from_user_name update) bw0 = (Ok tt, bw') ->
            get_remaining_budget today config update bw0
            = (Ok (A - field (current_cost_report today (usage t)))%float, bw')).
  { intros bw0 H0. unfold get_remaining_budget.
    unfold bind at 1. rewrite H0.
    unfold bind at 1, lift at 1. rewrite Hbudget.
    unfold bind at 1. rewrite (on_tracker_get_current_cost _ _ _ _ Ht).
    unfold bind, lift. rewrite Hfield. reflexivity. }
  split; [apply Hrem, Hensure|].
  unfold is_within_budget. unfold bind at 1. rewrite Hensure.
  unfold bind. rewrite (Hrem bw' (ensure_tracker_present _ _ _ _ _ Ht)).
  reflexivity.
Qed.

(** C8 (as amended). For a user on the allow-list who is not an admin and
    whose entry of the budget list is the allowance A, whatever the
    operating system: [get_remaining_budget] returns A minus the figure
    that [get_current_cost] reports for the configured period -- the cost
    of today for "daily", of the month for "monthly", of all time for
    "all-time" -- and [is_within_budget] returns whether that remainder is
    greater than zero.  The figures of the day and of the month are read
    from [current_cost] alone; so is the figure of all time when the key
    "all_time" is there, and when it is not, the figure is the cost summed
    from the whole history. *)
Theorem C8_budget_gate {os : os_t} today config update (bw bw' : bot_world)
    i b A :
  is_admin config update = false ->
  user_budgets config <> "*" ->
  allowed_user_ids config <> "*" ->
  list_index (pretty (from_user_id update))
             (str_split ","%char (allowed_user_ids config)) = Ok i ->
  nth_error (str_split ","%char (user_budgets config)) (Z.to_nat i) = Some b ->
  py_float b = Ok A ->
  ensure_tracker today (IdInt (from_user_id update)) (from_user_name update) bw
    = (Ok tt, bw') ->
  exists t r,
    fst bw' !! IdInt (from_user_id update) = Some t
    /\ get_current_cost today (t, snd bw') = (Ok r, (t, snd bw'))
    /\ (forall figure,
          budget_period config = "daily" /\ figure = cost_today r
          \/ budget_period config = "monthly" /\ figure = cost_month r
          \/ budget_period config = "all-time" /\ figure = cost_all_time r ->
          get_remaining_budget today config update bw
            = (Ok (A - figure)%float, bw')
          /\ is_within_budget today config update bw
            = (Ok (0 <? A - figure)%float, bw'))
    /\ cost_today r
       = (if date.eqb today (last_update (current_cost (usage t)))
          then day (current_cost (usage t)) else 0.0%float)
    /\ cost_month r
       = (if date.eqb today (last_update (current_cost (usage t)))
          then month (current_cost (usage t))
          else if date.month today
                  =? date.month (last_update (current_cost (usage t)))
               then month (current_cost (usage t)) else 0.0%float)
    /\ cost_all_time r
       = match all_time (current_cost (usage t)) with
         | Some x => x
         | None => history_cost (usage t)
         end.
Proof.
  intros Hadmin Hb Ha Hi Hnth HA Hensure.
  destruct (ensure_tracker_registers _ _ _ _ _ Hensure) as [t Ht].
  exists t, (current_cost_report today (usage t)).
  split; [exact Ht|]. split; [apply get_current_cost_run|].
  split; [|repeat split].
  intros figure Hperiod.
  pose proof (get_user_budget_allowed _ _ _ _ _ Hadmin Hb Ha Hi Hnth HA) as Hbudget.
  destruct Hperiod as [[Hp ->] | [[Hp ->] | [Hp ->]]];
    apply (budget_of_own_allowance today config update bw bw' A _ t Hbudget);
    try assumption; unfold budget_cost_map; rewrite Hp; reflexivity.
Qed.

Lemma two_users_config_user_1 :
  is_admin two_users_config update_from_user_1 = false
  /\ user_budgets two_users_config <> "*"
  /\ allowed_user_ids two_users_config <> "*"
  /\ list_index (pretty (from_user_id update_from_user_1))
                (str_split ","%char (allowed_user_ids two_users_config)) = Ok 0
  /\ nth_error (str_split ","%char (user_budgets two_users_config)) (Z.to_nat 0)
     = Some "5.00"
  /\ py_float "5.00" = Ok 5.00%float.
Proof.
  repeat split; try reflexivity; intros H; discriminate H.
Defined.

(** Allowance 5.00 a day: with an accumulated cost of 5.00 the user is not
    within budget, with 4.99 the user is. *)
Lemma C8_budget_gate_witness :
  (is_admin two_users_config update_from_user_1 = false
   /\ user_budgets two_users_config <> "*"
   /\ allowed_user_ids two_users_config <> "*"
   /\ list_index (pretty (from_user_id update_from_user_1))
                 (str_split ","%char (allowed_user_ids two_users_config)) = Ok 0
   /\ nth_error (str_split ","%char (user_budgets two_users_config)) (Z.to_nat 0)
      = Some "5.00"
   /\ py_float "5.00" = Ok 5.00%float)
  /\ budget_period two_users_config = "daily"
  /\
  (let bw : bot_world := ({[ IdInt 1 := tracker_with_cost 5.00 ]}, ∅) in
   get_remaining_budget march_14 two_users_config update_from_user_1 bw
     = (Ok (5.00 - 5.00)%float, bw)
   /\ is_within_budget march_14 two_users_config update_from_user_1 bw
     = (Ok false, bw))
  /\
  (let bw : bot_world := ({[ IdInt 1 := tracker_with_cost 4.99 ]}, ∅) in
   get_remaining_budget march_14 two_users_config update_from_user_1 bw
     = (Ok (5.00 - 4.99)%float, bw)
   /\ is_within_budget march_14 two_users_config update_from_user_1 bw
     = (Ok true, bw)).
Proof.
  split; [exact two_users_config_user_1|]. split; [reflexivity|].
  destruct two_users_config_user_1 as (H1 & H2 & H3 & H4 & H5 & H6).
  split; intros bw.
  - destruct (C8_budget_gate march_14 two_users_config update_from_user_1
                bw bw 0 "5.00" 5.00%float H1 H2 H3 H4 H5 H6 eq_refl)
      as (t & r & Ht & Hr & Hgate & _).
    vm_compute in Ht. injection Ht as <-.
    rewrite get_current_cost_run in Hr. injection Hr as <-.
    exact (Hgate _ (or_introl (conj eq_refl eq_refl))).
  - destruct (C8_budget_gate march_14 two_users_config update_from_user_1
                bw bw 0 "5.00" 5.00%float H1 H2 H3 H4 H5 H6 eq_refl)
      as (t & r & Ht & Hr & Hgate & _).
    vm_compute in Ht. injection Ht as <-.
    rewrite get_current_cost_run in Hr. injection Hr as <-.
    exact (Hgate _ (or_introl (conj eq_refl eq_refl))).
Defined.

(** Two records with the same current costs, the key "all_time" missing:
    the one of the class docstring and one without history.  Under an
    all-time budget of 5.00 the first user has 5.00 less the cost of the
    history left, the second 5.00: the figure is summed from the history. *)
Lemma C8_counterexample :
  ~ (forall u1 u2 : usage_t,
       current_cost u1 = current_cost u2 ->
       fst (get_remaining_budget march_14 all_time_config update_from_user_1
              ({[ IdInt 1 := set_usage u1 docstring_tracker ]}, ∅))
       = fst (get_remaining_budget march_14 all_time_config update_from_user_1
                ({[ IdInt 1 := set_usage u2 docstring_tracker ]}, ∅))).
Proof.
  intros H.
  specialize (H docstring_usage_without_all_time costs_without_history eq_refl).
  apply (f_equal (fun r => match r with
                           | Ok x => (x <? 4.9)%float
                           | Raise _ => false
                           end)) in H.
  vm_compute in H. discriminate H.
Qed.

(** ** Usage figures after an event *)

Lemma dict_get_set (V : Type) k d (v : V) h :
  dict_get k (dict_set d v h) = if date.eqb k d then Some v else dict_get k h.
Proof.
  induction h as [|[k' v'] h IH]; cbn [dict_set dict_get].
  - destruct (date.eqb k d); reflexivity.
  - destruct (date.eqb d k') eqn:E; cbn [dict_get].
    + apply date_eqb_eq in E. subst k'. destruct (date.eqb k d); reflexivity.
    + rewrite IH. destruct (date.eqb k k') eqn:E'; [|reflexivity].
      apply date_eqb_eq in E'. subst k'.
      destruct (date.eqb k d) eqn:E''; [|reflexivity].
      apply date_eqb_eq in E''. subst d. rewrite date_eqb_refl in E. discriminate E.
Qed.

(** The sum a getter takes over the entries of the month of [today]. *)
Lemma month_sum_shift (V : Type) (size : V -> Z) today (series : dict V) acc x :
  fold_left (fun acc '(d, v) => if in_month_of today d then acc + size v else acc)
            series (acc + x)
  = fold_left (fun acc '(d, v) => if in_month_of today d then acc + size v else acc)
              series acc + x.
Proof.
  revert acc. induction series as [|[k v] series IH]; intros acc; cbn [fold_left].
  - reflexivity.
  - destruct (in_month_of today k); [|apply IH].
    replace (acc + x + size v) with (acc + size v + x) by lia. apply IH.
Qed.

Lemma month_sum_after_set (V : Type) (size : V -> Z) (P : V -> Prop) today d
    (grow : option V -> V) (series : dict V) acc n :
  Forall (fun entry => P (snd entry)) series ->
  (forall v, P v -> size (grow (Some v)) = size v + n) ->
  size (grow None) = n ->
  fold_left (fun acc '(d, v) => if in_month_of today d then acc + size v else acc)
            (dict_set d (grow (dict_get d series)) series) acc
  = fold_left (fun acc '(d, v) => if in_month_of today d then acc + size v else acc)
              series acc
    + (if in_month_of today d then n else 0).
Proof.
  intros Hall Hsome Hnone. revert acc.
  induction Hall as [|[k v] series Hv Hall IH]; intros acc;
    cbn [dict_set dict_get fold_left].
  - rewrite Hnone. destruct (in_month_of today d); lia.
  - destruct (date.eqb d k) eqn:E; cbn [fold_left].
    + apply date_eqb_eq in E. subst k. rewrite (Hsome v Hv).
      destruct (in_month_of today d); [|lia].
      replace (acc + (size v + n)) with (acc + size v + n) by lia.
      apply month_sum_shift.
    + apply IH.
Qed.

(** Tokens added on the date [d] are counted by [get_current_token_usage]
    in the day figure when [d] is today, in the month figure when [d] has
    the year and the month of today, and not at all otherwise.  (The
    operating system is the one that obliges.) *)
Theorem token_usage_after_add_chat_tokens today d tokens price t (disk : files) :
  exists used used_month w',
    get_current_token_usage today (t, disk) = (Ok (used, used_month), (t, disk))
    /\ add_chat_tokens d tokens price (t, disk) = (Ok tt, w')
    /\ get_current_token_usage today w'
       = (Ok (if date.eqb today d then used + tokens else used,
              if in_month_of today d then used_month + tokens else used_month),
          w').
Proof.
  eexists _, _, _. split; [reflexivity|].
  split; [apply (add_chat_tokens_run _ _ _ _ _ _ eq_refl)|].
  unfold get_current_token_usage, stored, bind, read_history, gets, ret.
  cbn [fst snd usage set_usage usage_history after_event record_event
       set_chat_tokens chat_tokens year_month].
  f_equal. f_equal. f_equal.
  - rewrite dict_get_set. destruct (date.eqb today d) eqn:E; [|reflexivity].
    apply date_eqb_eq in E. subst d.
    destruct (dict_get today (chat_tokens (usage_history (usage t)))); reflexivity.
  - pose proof (month_sum_after_set Z (fun v => v) (fun _ => True) today d
               (fun old => match old with Some used => used + tokens | None => tokens end)
               (chat_tokens (usage_history (usage t))) 0 tokens) as H.
    cbv beta in H. unfold in_month_of in *. cbn [fst snd] in *.
    rewrite H; [| apply List.Forall_forall; auto | intros; cbn; lia | reflexivity].
    destruct (_ && _); lia.
Qed.

Lemma int_sum_after_increment i counts :
  (i = 0 \/ i = 1 \/ i = 2) -> length counts = 3%nat ->
  int_sum (<[Z.to_nat i := nth (Z.to_nat i) counts 0 + 1]> counts)
  = int_sum counts + 1.
Proof.
  intros Hi Hlen. destruct counts as [|a [|b [|c [|]]]]; try discriminate.
  unfold int_sum.
  destruct Hi as [-> | [-> | ->]];
    [change (Z.to_nat 0) with 0%nat | change (Z.to_nat 1) with 1%nat
     | change (Z.to_nat 2) with 2%nat];
    cbn; lia.
Qed.

(** An image request recorded on the date [d] is counted by
    [get_current_image_count] in the day figure when [d] is today, in the
    month figure when [d] has the year and the month of today, and not at
    all otherwise.  (The operating system is the one that obliges.) *)
Theorem image_count_after_add_image_request today d size prices c t
    (disk : files) :
  well_formed (usage t) ->
  event_cost (ImageRequest size prices) = Ok c ->
  exists made made_month w',
    get_current_image_count today (t, disk) = (Ok (made, made_month), (t, disk))
    /\ add_image_request d size prices (t, disk) = (Ok tt, w')
    /\ get_current_image_count today w'
       = (Ok (if date.eqb today d then made + 1 else made,
              if in_month_of today d then made_month + 1 else made_month),
          w').
Proof.
  intros Hwf Hc. eexists _, _, _. split; [reflexivity|].
  split; [apply (add_image_request_run _ _ _ _ _ _ Hwf Hc)|].
  unfold event_cost in Hc.
  destruct (list_index size sizes) as [i|] eqn:Hi; [|discriminate Hc].
  pose proof (list_index_sizes _ _ Hi) as Hrange.
  unfold get_current_image_count, stored, bind, read_history, gets, ret.
  cbn [fst snd usage set_usage usage_history after_event record_event year_month].
  rewrite Hi. cbn [set_number_images number_images].
  set (series := number_images (usage_history (usage t))).
  assert (Hlen : forall counts, dict_get d series = Some counts ->
                                length counts = 3%nat).
  { intros counts Hget. destruct (dict_get_In _ _ _ Hget) as [k Hin].
    unfold well_formed in Hwf. rewrite List.Forall_forall in Hwf.
    apply (Hwf _ Hin). }
  f_equal. f_equal. f_equal.
  - rewrite dict_get_set. destruct (date.eqb today d) eqn:E; [|reflexivity].
    apply date_eqb_eq in E. subst d.
    destruct (dict_get today series) as [counts|] eqn:Hget.
    + apply int_sum_after_increment; auto.
    + apply int_sum_after_increment; auto.
  - pose proof (month_sum_after_set (list Z) int_sum
                  (fun counts => length counts = 3%nat) today d
                  (fun old => let counts := match old with
                                            | Some counts => counts
                                            | None => [0; 0; 0]
                                            end in
                              <[Z.to_nat i := nth (Z.to_nat i) counts 0 + 1]> counts)
                  series 0 1) as H.
    cbv beta zeta in H. unfold in_month_of in *. cbn [fst snd] in *.
    rewrite H.
    + destruct (_ && _); lia.
    + exact Hwf.
    + intros counts Hc3. apply int_sum_after_increment; auto.
    + rewrite int_sum_after_increment; auto.
Qed.


(** ** Failures, and what an event leaves alone *)

(** The writing of the user file leaves [self] alone. *)
Lemma write_user_file_tracker {os : os_t} (w : world) :
  fst (snd (write_user_file w)) = fst w.
Proof.
  unfold write_user_file.
  destruct (os_write (user_file (fst w)) (usage (fst w)) (snd w)); reflexivity.
Qed.

(** An event that raises, on a ledger whose image counters have three
    entries, whatever the operating system.  Either its cost could not be
    computed (unknown size, price list too short, or prices given as a
    string): then nothing has changed, in memory or on disk.  Or the cost
    was computed and it is the writing of the user file that raised: then
    [self.usage] holds the event, charged and recorded, and the user file
    is as it was where it could not be opened, or holds what got written
    where the writing broke off. *)
Theorem failed_event_unpriced_or_unwritten {os : os_t} today e x (w w' : world) :
  well_formed (usage (fst w)) ->
  apply_event today e w = (Raise x, w') ->
  (event_cost e = Raise x /\ w' = w)
  \/ exists c,
       event_cost e = Ok c
       /\ fst w' = set_usage (after_event today e c (usage (fst w))) (fst w)
       /\ match os_write (user_file (fst w))
                         (after_event today e c (usage (fst w))) (snd w) with
          | Written => False
          | NotOpened x' => x' = x /\ snd w' = snd w
          | Broken x' partial =>
              x' = x /\ snd w' = <[user_file (fst w) := partial]> (snd w)
          end.
Proof.
  intros Hwf Hrun. destruct w as [t disk]. cbn [fst snd] in *.
  destruct (event_cost e) as [c|y] eqn:Hc.
  - right. exists c. split; [reflexivity|].
    rewrite (apply_event_ends _ _ _ _ _ Hwf Hc) in Hrun.
    unfold write_user_file in Hrun.
    destruct t as [uid dir path u]. cbn [fst snd set_usage user_file usage] in *.
    destruct (os_write path (after_event today e c u) disk);
      inversion Hrun; subst; cbn [fst snd]; auto.
  - left. rewrite (apply_event_raises _ _ _ _ Hc) in Hrun.
    injection Hrun as <- <-. auto.
Qed.

(** Whatever an event does, returning or raising, and whatever the
    operating system, the image counters still have three entries per
    date afterwards. *)
Theorem event_keeps_well_formed {os : os_t} today e r (w w' : world) :
  well_formed (usage (fst w)) ->
  apply_event today e w = (r, w') ->
  well_formed (usage (fst w')).
Proof.
  intros Hwf Hrun. destruct w as [t disk]. cbn [fst] in Hwf.
  destruct (event_cost e) as [c|y] eqn:Hc.
  - rewrite (apply_event_ends _ _ _ _ _ Hwf Hc) in Hrun.
    apply (f_equal (fun end_ => fst (snd end_))) in Hrun.
    rewrite write_user_file_tracker in Hrun. cbn [fst snd] in Hrun.
    rewrite <- Hrun.
    cbn [fst usage set_usage]. apply after_event_well_formed, Hwf.
  - rewrite (apply_event_raises _ _ _ _ Hc) in Hrun.
    injection Hrun as _ <-. exact Hwf.
Qed.

(** Where today's image counters are too short for the requested size
    (a list read from a file), [add_image_request] raises [IndexError]
    after the costs were charged in memory: the history and the file are as
    before, the current costs are not.  The operating system has no part
    in it. *)
Theorem short_counters_fail_after_charge {os : os_t} today size prices i c
    counts t (disk : files) :
  list_index size sizes = Ok i ->
  getitem prices i = Ok (ItemFloat c) ->
  dict_get today (number_images (usage_history (usage t))) = Some counts ->
  (length counts <= Z.to_nat i)%nat ->
  add_image_request today size prices (t, disk)
  = (Raise IndexError,
     (set_usage {| user_name := user_name (usage t);
                   current_cost := charge today c (history_cost (usage t))
                                     (current_cost (usage t));
                   usage_history := usage_history (usage t) |} t,
      disk)).
Proof.
  intros Hi Hitem Hget Hlen. unfold add_image_request.
  unfold bind at 1, lift at 1. rewrite Hi.
  unfold bind at 1, lift at 1. rewrite Hitem.
  unfold bind at 1. unfold read_cost at 1, gets at 1.
  unfold bind at 1. rewrite initialize_all_time_cost_run.
  cbn [fst snd].
  generalize (history_cost (usage t)) as init. intros init.
  destruct t as [uid dir path [name cc h]].
  cbn [usage usage_history] in Hget. unfold charge.
  assert (Hinc : increment_at i counts = Raise IndexError).
  { unfold increment_at.
    destruct (nth_error counts (Z.to_nat i)) eqn:E; [|reflexivity].
    assert (nth_error counts (Z.to_nat i) <> None) as Hsome by congruence.
    apply List.nth_error_Some in Hsome. lia. }
  run_method.
  destruct (date.eqb today (last_update cc)); cbn.
  - rewrite Hget. cbn. rewrite Hinc. reflexivity.
  - destruct (date.month today =? date.month (last_update cc)); cbn;
      rewrite Hget; cbn; rewrite Hinc; reflexivity.
Qed.

Lemma own_file_bind {A B} (m : M world A) (k : A -> M world B) :
  own_file_only m -> (forall a, own_file_only (k a)) -> own_file_only (bind m k).
Proof.
  intros Hm Hk w. unfold bind. destruct (Hm w) as [Hfile Hothers].
  destruct (m w) as [[a|x] w1]; cbn [fst snd] in *; [|auto].
  destruct (Hk a w1) as [Hfile' Hothers']. split; [congruence|].
  intros path Hpath. rewrite Hothers' by congruence. apply Hothers, Hpath.
Qed.

Lemma own_file_pure {A} (m : M world A) :
  (forall w, snd (m w) = w) -> own_file_only m.
Proof. intros H w. rewrite H. auto. Qed.

Lemma own_file_update_cost f : own_file_only (update_cost f).
Proof. intros [[uid dir path u] disk]. cbn. auto. Qed.

Lemma own_file_update_history f : own_file_only (update_history f).
Proof. intros [[uid dir path u] disk]. cbn. auto. Qed.

Lemma own_file_write_user_file {os : os_t} : own_file_only write_user_file.
Proof.
  intros [[uid dir path u] disk]. unfold write_user_file.
  cbn [fst snd user_file usage].
  destruct (os_write path u disk); cbn [fst snd user_file];
    (split; [reflexivity|]); intros other Hother;
    try reflexivity; apply lookup_insert_ne; congruence.
Qed.

Lemma own_file_initialize_all_time_cost : own_file_only initialize_all_time_cost.
Proof.
  apply own_file_pure. intros w. rewrite initialize_all_time_cost_run. reflexivity.
Qed.

Ltac own_file_step :=
  first
    [ apply own_file_bind; [|intros ?]
    | apply own_file_update_cost
    | apply own_file_update_history
    | apply own_file_write_user_file
    | apply own_file_initialize_all_time_cost
    | apply own_file_pure; intros ?; reflexivity
    | match goal with
      | |- own_file_only (if ?b then _ else _) => destruct b
      | |- own_file_only (match ?x with _ => _ end) => destruct x
      end ].

(** An event, whatever the ledger and the operating system and whether
    the method returns or raises, changes no file but the user file of
    its own tracker. *)
Theorem event_writes_own_file_only {os : os_t} today e r (w w' : world) path :
  apply_event today e w = (r, w') ->
  path <> user_file (fst w) ->
  snd w' !! path = snd w !! path.
Proof.
  intros Hrun Hpath.
  assert (H : own_file_only (apply_event today e)).
  { destruct e; cbn [apply_event];
      unfold add_chat_tokens, add_transcription_seconds, add_image_request,
        read_cost, read_history;
      repeat own_file_step. }
  destruct (H w) as [_ Hothers]. rewrite Hrun in Hothers. apply Hothers, Hpath.
Qed.

Lemma ends_bind {A B} (m : M world A) (k : A -> M world B) :
  (forall a, ends_in_write (k a)) -> ends_in_write (bind m k).
Proof.
  intros Hk w b w'. unfold bind. destruct (m w) as [[a|x] w1]; [|discriminate].
  apply Hk.
Qed.

Lemma ends_raise {A} x : ends_in_write (@raise world A x).
Proof. intros w a w' H. discriminate H. Qed.

Lemma ends_write_user_file {os : os_t} : ends_in_write write_user_file.
Proof.
  intros [t disk] a w'. unfold write_user_file. cbn [fst snd].
  destruct (os_write (user_file t) (usage t) disk); intros H; inversion H; subst w'.
  unfold synced. cbn [fst snd]. apply lookup_insert_eq.
Qed.

(** When an event returns, on whatever ledger and operating system, the
    user file holds exactly the record in memory. *)
Theorem event_leaves_file_in_step {os : os_t} today e (w w' : world) :
  apply_event today e w = (Ok tt, w') ->
  snd w' !! user_file (fst w') = Some (JsonDocument (usage (fst w'))).
Proof.
  assert (H : ends_in_write (apply_event today e)).
  { destruct e; cbn [apply_event];
      unfold add_chat_tokens, add_transcription_seconds, add_image_request;
      repeat first [ apply ends_write_user_file
                   | apply ends_raise
                   | apply ends_bind; intros ?
                   | match goal with
                     | |- ends_in_write (match ?x with _ => _ end) => destruct x
                     end ]. }
  apply H.
Qed.

(** An event touches today's history entries only: the entries of every
    other date, in all three series, and the user name are as before,
    whether the method returns or raises and whatever the operating
    system. *)
Theorem event_leaves_other_dates {os : os_t} today e r (w w' : world) d :
  well_formed (usage (fst w)) ->
  apply_event today e w = (r, w') ->
  d <> today ->
  entries_on d (usage (fst w')) = entries_on d (usage (fst w))
  /\ user_name (usage (fst w')) = user_name (usage (fst w)).
Proof.
  intros Hwf Hrun Hd. destruct w as [t disk]. cbn [fst] in *.
  assert (Hne : date.eqb d today = false).
  { destruct (date.eqb d today) eqn:E; [|reflexivity].
    apply date_eqb_eq in E. contradiction. }
  destruct (event_cost e) as [c|y] eqn:Hc.
  - rewrite (apply_event_ends _ _ _ _ _ Hwf Hc) in Hrun.
    apply (f_equal (fun end_ => fst (snd end_))) in Hrun.
    rewrite write_user_file_tracker in Hrun. cbn [fst snd] in Hrun.
    rewrite <- Hrun.
    cbn [fst usage set_usage after_event user_name].
    split; [|reflexivity].
    unfold entries_on.
    destruct e as [n price|s price|size prices];
      cbv zeta; unfold after_event;
      cbn [usage_history record_event set_chat_tokens set_transcription_seconds
           set_number_images chat_tokens transcription_seconds number_images].
    + rewrite dict_get_set, Hne. reflexivity.
    + rewrite dict_get_set, Hne. reflexivity.
    + destruct (list_index size sizes) as [i|]; [|reflexivity].
      cbv zeta.
      cbn [set_number_images chat_tokens transcription_seconds number_images].
      rewrite dict_get_set, Hne. reflexivity.
  - rewrite (apply_event_raises _ _ _ _ Hc) in Hrun.
    injection Hrun as _ <-. auto.
Qed.

(** What [get_current_cost] reports after an event of today, against what
    it reported before: the all-time cost has grown by the cost of the
    event; the day cost has grown by it when the ledger was dated today,
    and is that cost alone otherwise; the month cost has grown by it when
    the ledger was dated today or in a month of the same number, and is
    that cost alone otherwise.  (The operating system is the one that
    obliges.) *)
Theorem cost_report_after_event today e c t (disk : files) :
  well_formed (usage t) ->
  event_cost e = Ok c ->
  exists before w' after,
    get_current_cost today (t, disk) = (Ok before, (t, disk))
    /\ apply_event today e (t, disk) = (Ok tt, w')
    /\ get_current_cost today w' = (Ok after, w')
    /\ cost_all_time after = (cost_all_time before + c)%float
    /\ cost_today after
       = (if date.eqb today (last_update (current_cost (usage t)))
          then (cost_today before + c)%float else c)
    /\ cost_month after
       = (if date.eqb today (last_update (current_cost (usage t)))
             || (date.month today =? date.month (last_update (current_cost (usage t))))
          then (cost_month before + c)%float else c).
Proof.
  intros Hwf Hc. eexists _, _, _.
  split; [apply get_current_cost_run|].
  split; [apply apply_event_run; eassumption|].
  split; [apply get_current_cost_run|].
  unfold stored, current_cost_report.
  cbn [fst usage set_usage after_event current_cost
       cost_all_time cost_today cost_month].
  rewrite charge_last_update, date_eqb_refl.
  unfold get_all_time at 1. rewrite charge_all_time.
  unfold charge.
  destruct (date.eqb today (last_update (current_cost (usage t)))); cbn [orb day month].
  - auto.
  - destruct (date.month today =? _); auto.
Qed.

(** ** More on the budget gate *)

(** Infinity less a number below infinity is above zero. *)
Lemma infinity_minus_lesser (c : float) :
  (c <? infinity)%float = true -> (0 <? infinity - c)%float = true.
Proof.
  rewrite !ltb_spec, sub_spec.
  change (Prim2SF infinity) with (S754_infinity false).
  change (Prim2SF 0) with (S754_zero false).
  destruct (Prim2SF c) as [s|[|]| |s m e]; cbn; congruence.
Qed.

(** Zero less a number that is zero or above is not above zero. *)
Lemma zero_minus_nonnegative (c : float) :
  (0 <=? c)%float = true -> (0 <? 0 - c)%float = false.
Proof.
  rewrite leb_spec, ltb_spec, sub_spec.
  change (Prim2SF 0) with (S754_zero false).
  destruct (Prim2SF c) as [[|]|[|]| |[|] m e]; cbn; congruence.
Qed.

(** Admins, and everybody when the budget list is "*", have no limit: the
    remaining budget is infinity less the cost of the period, and the user
    is within budget as long as that cost is below infinity. *)
Theorem unlimited_budget_is_within_budget {os : os_t} today config update
    (bw bw' : bot_world) field t :
  is_admin config update = true \/ user_budgets config = "*" ->
  budget_cost_map (budget_period config) = Ok field ->
  ensure_tracker today (IdInt (from_user_id update)) (from_user_name update) bw
    = (Ok tt, bw') ->
  fst bw' !! IdInt (from_user_id update) = Some t ->
  (field (current_cost_report today (usage t)) <? infinity)%float = true ->
  get_remaining_budget today config update bw
    = (Ok (infinity - field (current_cost_report today (usage t)))%float, bw')
  /\ is_within_budget today config update bw = (Ok true, bw').
Proof.
  intros Hfree Hfield Hensure Ht Hcost.
  assert (Hbudget : get_user_budget config update = Ok (Some infinity)).
  { unfold get_user_budget. destruct Hfree as [-> | ->]; [reflexivity|].
    rewrite orb_true_r. reflexivity. }
  destruct (budget_of_own_allowance _ _ _ _ _ _ _ _ Hbudget Hfield Hensure Ht)
    as [Hrem Hwithin].
  split; [exact Hrem|].
  rewrite Hwithin, (infinity_minus_lesser _ Hcost). reflexivity.
Qed.

(** A user on the allow-list whose position has no entry in the budget
    list gets the allowance 0.0 and no exception; with a cost of the
    period that is zero or above, the user is not within budget. *)
Theorem missing_budget_entry_is_zero {os : os_t} today config update
    (bw bw' : bot_world) i field t :
  is_admin config update = false ->
  user_budgets config <> "*" ->
  allowed_user_ids config <> "*" ->
  list_index (pretty (from_user_id update))
             (str_split ","%char (allowed_user_ids config)) = Ok i ->
  Z.of_nat (length (str_split ","%char (user_budgets config))) <= i ->
  budget_cost_map (budget_period config) = Ok field ->
  ensure_tracker today (IdInt (from_user_id update)) (from_user_name update) bw
    = (Ok tt, bw') ->
  fst bw' !! IdInt (from_user_id update) = Some t ->
  (0 <=? field (current_cost_report today (usage t)))%float = true ->
  get_user_budget config update = Ok (Some 0.0%float)
  /\ get_remaining_budget today config update bw
     = (Ok (0.0 - field (current_cost_report today (usage t)))%float, bw')
  /\ is_within_budget today config update bw = (Ok false, bw').
Proof.
  intros Hadmin Hb Ha Hi Hshort Hfield Hensure Ht Hcost.
  assert (Hbudget : get_user_budget config update = Ok (Some 0.0%float)).
  { unfold get_user_budget. rewrite Hadmin.
    apply String.eqb_neq in Hb, Ha. rewrite Hb, Ha. cbn [orb].
    destruct (list_index_found _ _ _ Hi) as [Hin _]. rewrite Hin, Hi.
    apply Z.leb_le in Hshort. rewrite Hshort. reflexivity. }
  destruct (budget_of_own_allowance _ _ _ _ _ _ _ _ Hbudget Hfield Hensure Ht)
    as [Hrem Hwithin].
  split; [exact Hbudget|]. split; [exact Hrem|].
  rewrite Hwithin, (zero_minus_nonnegative _ Hcost). reflexivity.
Qed.

(** With the allow-list "*", every user who is not an admin has the first
    entry of the budget list as allowance, whatever the user id, each
    against the costs of their own ledger. *)
Theorem open_list_shares_first_budget {os : os_t} today config update
    (bw bw' : bot_world) first rest A field t :
  is_admin config update = false ->
  user_budgets config <> "*" ->
  allowed_user_ids config = "*" ->
  str_split ","%char (user_budgets config) = first :: rest ->
  py_float first = Ok A ->
  budget_cost_map (budget_period config) = Ok field ->
  ensure_tracker today (IdInt (from_user_id update)) (from_user_name update) bw
    = (Ok tt, bw') ->
  fst bw' !! IdInt (from_user_id update) = Some t ->
  get_remaining_budget today config update bw
    = (Ok (A - field (current_cost_report today (usage t)))%float, bw')
  /\ is_within_budget today config update bw
    = (Ok (0 <? A - field (current_cost_report today (usage t)))%float, bw').
Proof.
  intros Hadmin Hb Ha Hsplit HA Hfield Hensure Ht.
  apply budget_of_own_allowance; try assumption.
  unfold get_user_budget. rewrite Hadmin.
  apply String.eqb_neq in Hb. rewrite Hb, Ha. cbn [orb String.eqb].
  change (String.eqb "*" "*") with true. cbv iota.
  rewrite Hsplit, HA. reflexivity.
Qed.

(** A user who is neither an admin nor on the allow-list has no budget of
    their own: the remaining budget is the guest budget less the cost of
    the period in the ledger of the guests, which is registered (as is the
    user's own ledger) when it was not. *)
Theorem unlisted_user_draws_on_guests {os : os_t} today config update
    (bw bw1 bw2 : bot_world) field g :
  is_admin config update = false ->
  user_budgets config <> "*" ->
  allowed_user_ids config <> "*" ->
  str_in (pretty (from_user_id update))
         (str_split ","%char (allowed_user_ids config)) = false ->
  budget_cost_map (budget_period config) = Ok field ->
  ensure_tracker today (IdInt (from_user_id update)) (from_user_name update) bw
    = (Ok tt, bw1) ->
  ensure_tracker today guests "all guest users in group chats" bw1 = (Ok tt, bw2) ->
  fst bw2 !! guests = Some g ->
  get_user_budget config update = Ok None
  /\ get_remaining_budget today config update bw
     = (Ok (guest_budget config - field (current_cost_report today (usage g)))%float,
        bw2)
  /\ is_Some (fst bw2 !! IdInt (from_user_id update)).
Proof.
  intros Hadmin Hb Ha Hout Hfield Hensure Hguests Hg.
  assert (Hbudget : get_user_budget config update = Ok None).
  { unfold get_user_budget. rewrite Hadmin.
    apply String.eqb_neq in Hb, Ha. rewrite Hb, Ha. cbn [orb].
    rewrite Hout. reflexivity. }
  split; [exact Hbudget|]. split.
  - unfold get_remaining_budget.
    unfold bind at 1. rewrite Hensure.
    unfold bind at 1, lift at 1. rewrite Hbudget.
    unfold bind at 1. rewrite Hguests.
    unfold bind at 1. rewrite (on_tracker_get_current_cost _ _ _ _ Hg).
    unfold bind, lift. rewrite Hfield. reflexivity.
  - destruct (ensure_tracker_registers _ _ _ _ _ Hensure) as [t Ht].
    unfold ensure_tracker in Hguests.
    destruct (fst bw1 !! guests) as [g0|] eqn:E.
    + injection Hguests as <-. eauto.
    + destruct (UsageTracker_init _ _ _ _ _) as [[g1|x] disk]; [|discriminate].
      injection Hguests as <-. cbn [fst].
      rewrite lookup_insert_ne by discriminate. eauto.
Qed.

Lemma UsageTracker_init_keeps_files {os : os_t} today uid name dir (disk : files) :
  snd (UsageTracker_init today uid name dir disk) = disk.
Proof.
  destruct (disk !! usage_path dir uid) as [f|] eqn:E.
  - rewrite (UsageTracker_init_present _ _ _ _ _ _ E).
    destruct (os_read _ _); [reflexivity|]. destruct (json_load f); reflexivity.
  - rewrite (UsageTracker_init_absent _ _ _ _ _ E).
    destruct (os_mkdir _ _); reflexivity.
Qed.


Lemma reads_only_bind {A B} (m : M bot_world A) (k : A -> M bot_world B) :
  reads_only m -> (forall a, reads_only (k a)) -> reads_only (bind m k).
Proof.
  intros Hm Hk bw. unfold bind. destruct (Hm bw) as [Hdisk Hkeep].
  destruct (m bw) as [[a|x] bw1]; cbn [fst snd] in *; [|auto].
  destruct (Hk a bw1) as [Hdisk' Hkeep']. split; [congruence|].
  intros key t Ht. apply Hkeep', Hkeep, Ht.
Qed.

Lemma reads_only_pure {A} (m : M bot_world A) :
  (forall bw, snd (m bw) = bw) -> reads_only m.
Proof. intros H bw. rewrite H. auto. Qed.

Lemma reads_only_ensure_tracker {os : os_t} today key name :
  reads_only (ensure_tracker today key name).
Proof.
  intros bw. unfold ensure_tracker.
  destruct (fst bw !! key) as [t|] eqn:E; [auto|].
  pose proof (UsageTracker_init_keeps_files today key name default_logs_dir (snd bw))
    as Hdisk.
  destruct (UsageTracker_init _ _ _ _ _) as [[t|x] disk]; cbn [fst snd] in *.
  - split; [exact Hdisk|]. intros key' t' Ht'.
    rewrite lookup_insert_ne; [exact Ht'|]. intros ->. congruence.
  - split; [exact Hdisk|]. auto.
Qed.

Lemma reads_only_get_current_cost today key :
  reads_only (on_tracker key (get_current_cost today)).
Proof.
  intros bw. unfold on_tracker.
  destruct (fst bw !! key) as [t|] eqn:E; [|auto].
  rewrite get_current_cost_run. cbn [fst snd]. split; [reflexivity|].
  intros key' t' Ht'. rewrite (insert_id _ _ _ E). exact Ht'.
Qed.

Ltac reads_only_step :=
  first
    [ apply reads_only_bind; [|intros ?]
    | apply reads_only_ensure_tracker
    | apply reads_only_get_current_cost
    | apply reads_only_pure; intros ?; reflexivity
    | match goal with
      | |- reads_only (match ?x with _ => _ end) => destruct x
      end ].

Lemma reads_only_get_remaining_budget {os : os_t} today config update :
  reads_only (get_remaining_budget today config update).
Proof. unfold get_remaining_budget. repeat reads_only_step. Qed.

(** A budget check, however it ends and whatever the operating system,
    writes no file and leaves every tracker that was registered as it
    was; all it may do is register the tracker of the user and that of the
    guests. *)
Theorem budget_check_reads_only {os : os_t} today config update
    (bw : bot_world) key t :
  fst bw !! key = Some t ->
  fst (snd (is_within_budget today config update bw)) !! key = Some t
  /\ snd (snd (is_within_budget today config update bw)) = snd bw
  /\ fst (snd (get_remaining_budget today config update bw)) !! key = Some t
  /\ snd (snd (get_remaining_budget today config update bw)) = snd bw.
Proof.
  intros Ht.
  assert (H : reads_only (is_within_budget today config update)).
  { unfold is_within_budget.
    repeat first [ apply reads_only_get_remaining_budget | reads_only_step ]. }
  destruct (H bw) as [Hdisk Hkeep].
  destruct (reads_only_get_remaining_budget today config update bw)
    as [Hdisk' Hkeep'].
  auto.
Qed.

(** The constructor of the bot accepts exactly the budget periods that the
    budget functions can look up: a bot that was constructed never meets a
    [KeyError] for its period, and it starts without any tracker. *)
Theorem constructed_bot_knows_its_period config :
  (exists bot, ChatGPTTelegramBot_init config = Ok (bot, ∅))
  <-> (exists field, budget_cost_map (budget_period config) = Ok field).
Proof.
  unfold ChatGPTTelegramBot_init, budget_print_map, budget_cost_map.
  destruct (String.eqb (budget_period config) "monthly");
    [split; eauto|].
  destruct (String.eqb (budget_period config) "daily");
    [split; eauto|].
  destruct (String.eqb (budget_period config) "all-time");
    [split; eauto|].
  split; intros [x H]; discriminate H.
Qed.

(** ** Access *)

(** A user is let in without any request to Telegram, in any kind of chat,
    when the allow-list is "*", or the user is an admin, or is on the
    allow-list. *)
Lemma listed_user_is_allowed config update chat get_chat_member :
  allowed_user_ids config = "*"
  \/ is_admin config update = true
  \/ str_in (pretty (from_user_id update))
            (str_split ","%char (allowed_user_ids config)) = true ->
  is_allowed config update chat get_chat_member = Replied true.
Proof.
  unfold is_allowed. intros [-> | [-> | ->]].
  - reflexivity.
  - destruct (String.eqb _ "*"); reflexivity.
  - destruct (String.eqb _ "*"); [reflexivity|].
    destruct (is_admin config update); reflexivity.
Qed.

(** The loop over the listed ids answers True exactly when some id that is
    not blank is found in the group and every id before it was blank or
    not in the group (no request before it having failed). *)
Lemma any_user_in_group_true get_chat_member users :
  any_user_in_group get_chat_member users = Replied true
  <-> exists before user after,
        users = (before ++ user :: after)%list
        /\ is_blank user = false
        /\ is_user_in_group get_chat_member user = Replied true
        /\ Forall (fun other => is_blank other = true
                                \/ is_user_in_group get_chat_member other
                                   = Replied false) before.
Proof.
  induction users as [|u users IH]; cbn [any_user_in_group].
  - split; [discriminate|]. intros (before & user & after & H & _).
    destruct before; discriminate H.
  - destruct (is_blank u) eqn:Hblank.
    + rewrite IH. split.
      * intros (before & user & after & -> & H1 & H2 & H3).
        exists (u :: before), user, after. repeat split; auto.
      * intros (before & user & after & H & H1 & H2 & H3).
        destruct before as [|b before]; cbn in H; injection H as -> ->.
        -- congruence.
        -- inversion H3; subst. exists before, user, after. auto.
    + destruct (is_user_in_group get_chat_member u) as [[|]|e] eqn:Hu.
      * split; [|reflexivity]. intros _. exists [], u, users. repeat split; auto.
      * rewrite IH. split.
        -- intros (before & user & after & -> & H1 & H2 & H3).
           exists (u :: before), user, after. repeat split; auto.
        -- intros (before & user & after & H & H1 & H2 & H3).
           destruct before as [|b before]; cbn in H; injection H as -> ->.
           ++ congruence.
           ++ inversion H3; subst. exists before, user, after. auto.
      * split; [discriminate|].
        intros (before & user & after & H & H1 & H2 & H3).
        destruct before as [|b before]; cbn in H; injection H as -> ->.
        -- congruence.
        -- inversion H3 as [|? ? [Hb | Hr] ?]; subst; congruence.
Qed.

(** A user who is neither an admin nor on the allow-list is refused in a
    chat that is not a group; in a group or supergroup the user is let in
    exactly when one of the ids of the allow-list and of the admin list,
    in this order and blank ids apart, is found in the group before any
    request has failed. *)
Theorem unlisted_user_access config update chat get_chat_member :
  allowed_user_ids config <> "*" ->
  is_admin config update = false ->
  str_in (pretty (from_user_id update))
         (str_split ","%char (allowed_user_ids config)) = false ->
  (is_group_chat chat = false ->
   is_allowed config update chat get_chat_member = Replied false)
  /\ (is_group_chat chat = true ->
      (is_allowed config update chat get_chat_member = Replied true
       <-> exists before user after,
             (str_split ","%char (allowed_user_ids config)
              ++ str_split ","%char (admin_user_ids config))%list
             = (before ++ user :: after)%list
             /\ is_blank user = false
             /\ is_user_in_group get_chat_member user = Replied true
             /\ Forall (fun other => is_blank other = true
                                     \/ is_user_in_group get_chat_member other
                                        = Replied false) before)).
Proof.
  intros Ha Hadmin Hout. unfold is_allowed.
  apply String.eqb_neq in Ha. rewrite Ha, Hadmin, Hout.
  split; intros Hchat; rewrite Hchat; [reflexivity|].
  apply any_user_in_group_true.
Qed.

(** A user who is not let in leaves no trace: whatever the sending of the
    refusal does, no tracker is registered and no file is touched; the
    budget is not looked at. *)
Theorem refused_user_leaves_no_trace {os : os_t} today config bot update chat
    get_chat_member send_message (bw : bot_world) :
  is_allowed config update chat get_chat_member <> Replied true ->
  snd (check_allowed_and_within_budget today config bot update chat
         get_chat_member send_message bw) = bw
  /\ fst (check_allowed_and_within_budget today config bot update chat
            get_chat_member send_message bw) <> Verdict true.
Proof.
  intros Hnot. unfold check_allowed_and_within_budget.
  destruct (is_allowed config update chat get_chat_member) as [[|]|e].
  - contradiction.
  - destruct (send_message _); split; [reflexivity|discriminate|reflexivity|discriminate].
  - split; [reflexivity|discriminate].
Qed.

(** The check answers True exactly when the user is let in and is within
    budget; the state it leaves is then the one the budget check leaves. *)
Theorem check_passes_iff_allowed_and_within_budget {os : os_t} today config bot
    update chat get_chat_member send_message (bw bw' : bot_world) :
  check_allowed_and_within_budget today config bot update chat
    get_chat_member send_message bw = (Verdict true, bw')
  <-> is_allowed config update chat get_chat_member = Replied true
      /\ is_within_budget today config update bw = (Ok true, bw').
Proof.
  unfold check_allowed_and_within_budget.
  destruct (is_allowed config update chat get_chat_member) as [[|]|e].
  - destruct (is_within_budget today config update bw) as [[[|]|x] bw1].
    + split; [intros [= <-]; auto | intros [_ [= <-]]; reflexivity].
    + destruct (send_message _); (split; [discriminate | intros [_ H]; discriminate H]).
    + split; [discriminate | intros [_ H]; discriminate H].
  - destruct (send_message _); (split; [discriminate | intros [H _]; discriminate H]).
  - split; [discriminate | intros [H _]; discriminate H].
Qed.

(** ** split_into_chunks *)

(** The chunks for a positive size, counted in [nat]. *)
Lemma split_into_chunks_positive {A} (text : list A) chunk_size :
  0 < chunk_size ->
  split_into_chunks text chunk_size
  = Ok (map (fun k => firstn (Z.to_nat chunk_size)
                             (skipn (k * Z.to_nat chunk_size) text))
            (seq 0 (Z.to_nat ((Z.of_nat (length text) + chunk_size - 1)
                              / chunk_size)))).
Proof.
  intros Hpos. unfold split_into_chunks, range_from_zero.
  destruct (chunk_size =? 0) eqn:E0; [lia|].
  destruct (chunk_size <? 0) eqn:E1; [lia|].
  rewrite map_map. f_equal. apply map_ext. intros k.
  replace (Z.to_nat (Z.of_nat k * chunk_size + chunk_size)
           - Z.to_nat (Z.of_nat k * chunk_size))%nat
    with (Z.to_nat chunk_size) by nia.
  replace (Z.to_nat (Z.of_nat k * chunk_size)) with (k * Z.to_nat chunk_size)%nat
    by nia.
  reflexivity.
Qed.

Lemma concat_pieces {A} (text : list A) size count : forall from,
  concat (map (fun k => firstn size (skipn (k * size) text)) (seq from count))
  = firstn (count * size) (skipn (from * size) text).
Proof.
  induction count as [|count IH]; intros from; cbn [seq map concat].
  - reflexivity.
  - rewrite IH.
    replace (S from * size)%nat with (from * size + size)%nat by lia.
    replace (S count * size)%nat with (size + count * size)%nat by lia.
    rewrite <- (drop_drop text size (from * size)). apply take_take_drop.
Qed.

Lemma pieces_cover (n c : Z) :
  0 <= n -> 0 < c -> n <= (n + c - 1) / c * c /\ ((n + c - 1) / c - 1) * c < n.
Proof.
  intros Hn Hc.
  pose proof (Z.div_mod (n + c - 1) c ltac:(lia)) as Hdm.
  pose proof (Z.mod_pos_bound (n + c - 1) c Hc) as Hmod.
  nia.
Qed.

(** Joining the chunks gives the text back, for every text and every
    positive chunk size. *)
Theorem split_into_chunks_concat {A} (text : list A) chunk_size :
  0 < chunk_size ->
  exists chunks,
    split_into_chunks text chunk_size = Ok chunks /\ concat chunks = text.
Proof.
  intros Hpos. eexists. split; [apply split_into_chunks_positive, Hpos|].
  rewrite concat_pieces. cbn [Nat.mul skipn]. apply take_ge.
  destruct (pieces_cover (Z.of_nat (length text)) chunk_size) as [Hcover _]; lia.
Qed.

(** For a positive chunk size there are as many chunks as the length of
    the text divided by the size, rounded up; none is empty, none is longer
    than the size, and all but the last have exactly that size. *)
Theorem split_into_chunks_sizes {A} (text : list A) chunk_size :
  0 < chunk_size ->
  exists chunks,
    split_into_chunks text chunk_size = Ok chunks
    /\ Z.of_nat (length chunks)
       = (Z.of_nat (length text) + chunk_size - 1) / chunk_size
    /\ Forall (fun chunk => 0 < Z.of_nat (length chunk) <= chunk_size) chunks
    /\ forall k, (S k < length chunks)%nat ->
                 Z.of_nat (length (nth k chunks [])) = chunk_size.
Proof.
  intros Hpos. eexists. split; [apply split_into_chunks_positive, Hpos|].
  destruct (pieces_cover (Z.of_nat (length text)) chunk_size) as [Hcover Hlast];
    [lia | lia |].
  set (count := (Z.of_nat (length text) + chunk_size - 1) / chunk_size) in *.
  assert (Hcount : 0 <= count) by (apply Z.div_pos; lia).
  split; [|split].
  - rewrite length_map, length_seq. lia.
  - apply List.Forall_forall. intros chunk Hin.
    apply in_map_iff in Hin. destruct Hin as (k & <- & Hk).
    apply in_seq in Hk. rewrite length_take, length_drop. nia.
  - intros k Hk. rewrite length_map, length_seq in Hk.
    rewrite (nth_indep _ [] (firstn (Z.to_nat chunk_size)
                               (skipn (0 * Z.to_nat chunk_size) text)))
      by (rewrite length_map, length_seq; lia).
    rewrite (map_nth (fun k => firstn (Z.to_nat chunk_size)
                                      (skipn (k * Z.to_nat chunk_size) text))).
    rewrite seq_nth by lia. rewrite length_take, length_drop. nia.
Qed.

(** ** The properties above at the example data *)

Lemma image_count_after_add_image_request_witness :
  well_formed (usage docstring_tracker)
  /\ event_cost image_512 = Ok 0.018%float
  /\ exists w',
       get_current_image_count march_14 (docstring_tracker, ∅)
       = (Ok (3, 14), (docstring_tracker, ∅))
       /\ add_image_request march_14 "512x512"
            (PricesList default_image_prices_list) (docstring_tracker, ∅)
          = (Ok tt, w')
       /\ get_current_image_count march_14 w' = (Ok (4, 15), w').
Proof.
  split; [exact docstring_usage_well_formed|]. split; [reflexivity|].
  destruct (image_count_after_add_image_request march_14 march_14 "512x512"
              (PricesList default_image_prices_list) 0.018%float
              docstring_tracker ∅ docstring_usage_well_formed eq_refl)
    as (made & made_month & w' & Hbefore & Hadd & Hafter).
  injection Hbefore as <- <-.
  exists w'. split; [reflexivity|]. split; [exact Hadd | exact Hafter].
Defined.

(** A chat event where no file can be opened for writing: the call raises
    [PermissionError], the files are as they were, and [self.usage] holds
    the event. *)
Lemma failed_event_unpriced_or_unwritten_witness :
  let after := after_event march_15 chat_1000 0.002 docstring_usage in
  well_formed (usage (fst (docstring_tracker, two_files)))
  /\ @apply_event write_protected march_15 chat_1000 (docstring_tracker, two_files)
     = (Raise (OSError "PermissionError"),
        (set_usage after docstring_tracker, two_files))
  /\ exists c,
       event_cost chat_1000 = Ok c
       /\ set_usage after docstring_tracker
          = set_usage (after_event march_15 chat_1000 c docstring_usage)
              docstring_tracker.
Proof.
  intros after.
  assert (Hrun : @apply_event write_protected march_15 chat_1000
                   (docstring_tracker, two_files)
                 = (Raise (OSError "PermissionError"),
                    (set_usage after docstring_tracker, two_files))).
  { rewrite (@apply_event_ends write_protected march_15 chat_1000 0.002%float);
      [reflexivity | exact docstring_usage_well_formed | reflexivity]. }
  split; [exact docstring_usage_well_formed|]. split; [exact Hrun|].
  destruct (@failed_event_unpriced_or_unwritten write_protected march_15
              chat_1000 _ (docstring_tracker, two_files) _
              docstring_usage_well_formed Hrun)
    as [[Hcost _] | (c & Hcost & Hmemory & _)].
  - discriminate Hcost.
  - exists c. split; [exact Hcost | exact Hmemory].
Defined.

(** The same event where the disk is full: the user file is left empty. *)
Lemma chat_event_on_full_disk :
  @apply_event disk_full march_15 chat_1000 (docstring_tracker, two_files)
  = (Raise (OSError "OSError"),
     (set_usage (after_event march_15 chat_1000 0.002 docstring_usage)
        docstring_tracker,
      <[usage_path default_logs_dir (IdInt 1) := NotJson ""]> two_files)).
Proof.
  rewrite (@apply_event_ends disk_full march_15 chat_1000 0.002%float);
    [reflexivity | exact docstring_usage_well_formed | reflexivity].
Qed.

Lemma event_keeps_well_formed_witness :
  well_formed (usage (fst (docstring_tracker, two_files)))
  /\ exists w',
       apply_event march_15 image_512 (docstring_tracker, two_files) = (Ok tt, w')
       /\ well_formed (usage (fst w')).
Proof.
  split; [exact docstring_usage_well_formed|].
  eexists. split.
  - apply (apply_event_run march_15 image_512 0.018%float);
      [exact docstring_usage_well_formed | reflexivity].
  - apply (event_keeps_well_formed march_15 image_512 (Ok tt)
             (docstring_tracker, two_files));
      [exact docstring_usage_well_formed|].
    apply (apply_event_run march_15 image_512 0.018%float);
      [exact docstring_usage_well_formed | reflexivity].
Defined.

Lemma short_counters_fail_after_charge_witness :
  list_index "1024x1024" sizes = Ok 2
  /\ getitem (PricesList default_image_prices_list) 2 = Ok (ItemFloat 0.02)
  /\ dict_get march_14 (number_images (usage_history short_counters_usage))
     = Some [0; 1]
  /\ (length [0; 1] <= Z.to_nat 2)%nat
  /\ add_image_request march_14 "1024x1024" (PricesList default_image_prices_list)
       (set_usage short_counters_usage docstring_tracker, two_files)
     = (Raise IndexError,
        (set_usage
           {| user_name := "@user_name";
              current_cost := {| day := 0.45 + 0.02; month := 3.23 + 0.02;
                                 all_time := Some (3.23 + 0.02)%float;
                                 last_update := march_14 |};
              usage_history := usage_history short_counters_usage |}
           docstring_tracker,
         two_files)).
Proof.
  assert (Hlen : (length [0; 1] <= Z.to_nat 2)%nat) by (cbn; lia).
  repeat (split; [first [reflexivity | exact Hlen]|]).
  exact (short_counters_fail_after_charge march_14 "1024x1024"
           (PricesList default_image_prices_list) 2 0.02%float [0; 1]
           (set_usage short_counters_usage docstring_tracker) two_files
           eq_refl eq_refl eq_refl Hlen).
Defined.

Lemma chat_1000_on_two_files :
  apply_event march_15 chat_1000 (docstring_tracker, two_files)
  = (Ok tt,
     stored docstring_tracker
       (after_event march_15 chat_1000 0.002%float docstring_usage) two_files).
Proof.
  apply (apply_event_run march_15 chat_1000 0.002%float);
    [exact docstring_usage_well_formed | reflexivity].
Qed.

Lemma event_writes_own_file_only_witness :
  usage_path default_logs_dir (IdInt 2) <> user_file (fst (docstring_tracker, two_files))
  /\ exists w',
       apply_event march_15 chat_1000 (docstring_tracker, two_files) = (Ok tt, w')
       /\ snd w' !! usage_path default_logs_dir (IdInt 2) = Some (NotJson "{").
Proof.
  assert (Hpath : usage_path default_logs_dir (IdInt 2)
                  <> user_file (fst (docstring_tracker, two_files))).
  { intros H. vm_compute in H. discriminate H. }
  split; [exact Hpath|]. eexists. split; [exact chat_1000_on_two_files|].
  rewrite (event_writes_own_file_only march_15 chat_1000 (Ok tt)
             (docstring_tracker, two_files) _ _ chat_1000_on_two_files Hpath).
  reflexivity.
Defined.

Lemma event_leaves_file_in_step_witness :
  exists w',
    apply_event march_15 chat_1000 (docstring_tracker, two_files) = (Ok tt, w')
    /\ snd w' !! usage_path default_logs_dir (IdInt 1)
       = Some (JsonDocument (usage (fst w'))).
Proof.
  eexists. split; [exact chat_1000_on_two_files|].
  exact (event_leaves_file_in_step march_15 chat_1000
           (docstring_tracker, two_files) _ chat_1000_on_two_files).
Defined.

Lemma event_leaves_other_dates_witness :
  well_formed (usage (fst (docstring_tracker, two_files)))
  /\ march_14 <> march_15
  /\ exists w',
       apply_event march_15 chat_1000 (docstring_tracker, two_files) = (Ok tt, w')
       /\ entries_on march_14 (usage (fst w'))
          = (Some 1532, Some 64%float, Some [0; 1; 2])
       /\ user_name (usage (fst w')) = "@user_name".
Proof.
  assert (Hd : march_14 <> march_15) by (intros H; discriminate H).
  split; [exact docstring_usage_well_formed|]. split; [exact Hd|].
  eexists. split; [exact chat_1000_on_two_files|].
  exact (event_leaves_other_dates march_15 chat_1000 (Ok tt)
           (docstring_tracker, two_files) _ march_14
           docstring_usage_well_formed chat_1000_on_two_files Hd).
Defined.

Lemma cost_report_after_event_witness :
  well_formed (usage docstring_tracker)
  /\ event_cost chat_1000 = Ok 0.002%float
  /\ exists w' after,
       get_current_cost march_15 (docstring_tracker, ∅)
       = (Ok {| cost_today := 0.0; cost_month := 3.23; cost_all_time := 3.23 |},
          (docstring_tracker, ∅))
       /\ apply_event march_15 chat_1000 (docstring_tracker, ∅) = (Ok tt, w')
       /\ get_current_cost march_15 w' = (Ok after, w')
       /\ cost_all_time after = (3.23 + 0.002)%float
       /\ cost_today after = 0.002%float
       /\ cost_month after = (3.23 + 0.002)%float.
Proof.
  split; [exact docstring_usage_well_formed|]. split; [reflexivity|].
  destruct (cost_report_after_event march_15 chat_1000 0.002%float
              docstring_tracker ∅ docstring_usage_well_formed eq_refl)
    as (before & w' & after & Hbefore & Hrun & Hafter & Hall & Hday & Hmonth).
  rewrite get_current_cost_run in Hbefore. injection Hbefore as <-.
  exists w', after. split; [apply get_current_cost_run|].
  split; [exact Hrun|]. split; [exact Hafter|].
  split; [exact Hall|]. split; [exact Hday | exact Hmonth].
Defined.

Lemma unlimited_budget_is_within_budget_witness :
  let bw : bot_world := ({[ IdInt 1 := tracker_with_cost 5.00 ]}, ∅) in
  (is_admin admin_config update_from_user_1 = true
   \/ user_budgets admin_config = "*")
  /\ budget_cost_map (budget_period admin_config) = Ok cost_month
  /\ (cost_month (current_cost_report march_14 (usage (tracker_with_cost 5.00)))
      <? infinity)%float = true
  /\ get_remaining_budget march_14 admin_config update_from_user_1 bw
     = (Ok (infinity - 5.00)%float, bw)
  /\ is_within_budget march_14 admin_config update_from_user_1 bw = (Ok true, bw).
Proof.
  intros bw.
  assert (Hfree : is_admin admin_config update_from_user_1 = true
                  \/ user_budgets admin_config = "*") by (left; reflexivity).
  split; [exact Hfree|]. split; [reflexivity|]. split; [reflexivity|].
  exact (unlimited_budget_is_within_budget march_14 admin_config
           update_from_user_1 bw bw cost_month (tracker_with_cost 5.00)
           Hfree eq_refl eq_refl eq_refl eq_refl).
Defined.

Lemma one_budget_config_user_2 :
  is_admin one_budget_config update_from_user_2 = false
  /\ user_budgets one_budget_config <> "*"
  /\ allowed_user_ids one_budget_config <> "*"
  /\ list_index (pretty (from_user_id update_from_user_2))
                (str_split ","%char (allowed_user_ids one_budget_config)) = Ok 1
  /\ Z.of_nat (length (str_split ","%char (user_budgets one_budget_config))) <= 1.
Proof.
  repeat split; try reflexivity; intros H; discriminate H.
Defined.

Lemma missing_budget_entry_is_zero_witness :
  let bw : bot_world := ({[ IdInt 2 := tracker_with_cost 0.0 ]}, ∅) in
  (is_admin one_budget_config update_from_user_2 = false
   /\ user_budgets one_budget_config <> "*"
   /\ allowed_user_ids one_budget_config <> "*"
   /\ list_index (pretty (from_user_id update_from_user_2))
                 (str_split ","%char (allowed_user_ids one_budget_config)) = Ok 1
   /\ Z.of_nat (length (str_split ","%char (user_budgets one_budget_config))) <= 1)
  /\ get_user_budget one_budget_config update_from_user_2 = Ok (Some 0.0%float)
  /\ get_remaining_budget march_14 one_budget_config update_from_user_2 bw
     = (Ok (0.0 - 0.0)%float, bw)
  /\ is_within_budget march_14 one_budget_config update_from_user_2 bw
     = (Ok false, bw).
Proof.
  intros bw. split; [exact one_budget_config_user_2|].
  destruct one_budget_config_user_2 as (H1 & H2 & H3 & H4 & H5).
  exact (missing_budget_entry_is_zero march_14 one_budget_config
           update_from_user_2 bw bw 1 cost_today (tracker_with_cost 0.0)
           H1 H2 H3 H4 H5 eq_refl eq_refl eq_refl eq_refl).
Defined.

Lemma open_list_shares_first_budget_witness :
  let bw : bot_world := ({[ IdInt 3 := tracker_with_cost 4.99 ]}, ∅) in
  is_admin open_config update_from_user_3 = false
  /\ user_budgets open_config <> "*"
  /\ str_split ","%char (user_budgets open_config) = ["5.00"; "10"]
  /\ py_float "5.00" = Ok 5.00%float
  /\ get_remaining_budget march_14 open_config update_from_user_3 bw
     = (Ok (5.00 - 4.99)%float, bw)
  /\ is_within_budget march_14 open_config update_from_user_3 bw = (Ok true, bw).
Proof.
  intros bw.
  assert (Hb : user_budgets open_config <> "*") by (intros H; discriminate H).
  split; [reflexivity|]. split; [exact Hb|]. split; [reflexivity|].
  split; [reflexivity|].
  exact (open_list_shares_first_budget march_14 open_config update_from_user_3
           bw bw "5.00" ["10"] 5.00%float cost_all_time (tracker_with_cost 4.99)
           eq_refl Hb eq_refl eq_refl eq_refl eq_refl eq_refl eq_refl).
Defined.

Lemma two_users_config_user_3 :
  is_admin two_users_config update_from_user_3 = false
  /\ user_budgets two_users_config <> "*"
  /\ allowed_user_ids two_users_config <> "*"
  /\ str_in (pretty (from_user_id update_from_user_3))
            (str_split ","%char (allowed_user_ids two_users_config)) = false.
Proof.
  repeat split; try reflexivity; intros H; discriminate H.
Defined.

Lemma unlisted_user_draws_on_guests_witness :
  (is_admin two_users_config update_from_user_3 = false
   /\ user_budgets two_users_config <> "*"
   /\ allowed_user_ids two_users_config <> "*"
   /\ str_in (pretty (from_user_id update_from_user_3))
             (str_split ","%char (allowed_user_ids two_users_config)) = false)
  /\ exists bw2 g,
       fst bw2 !! guests = Some g
       /\ get_remaining_budget march_14 two_users_config update_from_user_3
            (∅, two_files)
          = (Ok (0.0 - 0.0)%float, bw2)
       /\ is_Some (fst bw2 !! IdInt 3)
       /\ snd bw2 = two_files.
Proof.
  split; [exact two_users_config_user_3|].
  destruct two_users_config_user_3 as (H1 & H2 & H3 & H4).
  pose proof (unlisted_user_draws_on_guests march_14 two_users_config
                update_from_user_3 (∅, two_files) _ _ cost_today _
                H1 H2 H3 H4 eq_refl eq_refl eq_refl eq_refl)
    as (_ & Hrem & Hsome).
  eexists _, _. split; [|split; [exact Hrem|split; [exact Hsome|]]];
    reflexivity.
Defined.

Lemma budget_check_reads_only_witness :
  let bw : bot_world := ({[ IdInt 1 := tracker_with_cost 5.00 ]}, two_files) in
  fst bw !! IdInt 1 = Some (tracker_with_cost 5.00)
  /\ fst (snd (is_within_budget march_14 two_users_config update_from_user_3 bw))
     !! IdInt 1 = Some (tracker_with_cost 5.00)
  /\ snd (snd (is_within_budget march_14 two_users_config update_from_user_3 bw))
     = two_files.
Proof.
  intros bw.
  assert (Ht : fst bw !! IdInt 1 = Some (tracker_with_cost 5.00)) by reflexivity.
  split; [exact Ht|].
  destruct (budget_check_reads_only march_14 two_users_config update_from_user_3
              bw (IdInt 1) (tracker_with_cost 5.00) Ht) as (H1 & H2 & _).
  split; [exact H1 | exact H2].
Defined.

Lemma constructed_bot_knows_its_period_witness :
  budget_cost_map (budget_period two_users_config) = Ok cost_today
  /\ exists bot, ChatGPTTelegramBot_init two_users_config = Ok (bot, ∅).
Proof.
  split; [reflexivity|].
  apply (proj2 (constructed_bot_knows_its_period two_users_config)).
  exists cost_today. reflexivity.
Defined.

Lemma listed_user_is_allowed_witness :
  let unreachable (user : string) : reply member_status :=
    Failed (OtherError "Timed out") in
  (allowed_user_ids two_users_config = "*"
   \/ is_admin two_users_config update_from_user_1 = true
   \/ str_in (pretty (from_user_id update_from_user_1))
             (str_split ","%char (allowed_user_ids two_users_config)) = true)
  /\ is_allowed two_users_config update_from_user_1 SupergroupChat unreachable
     = Replied true.
Proof.
  intros unreachable.
  assert (Hlisted : allowed_user_ids two_users_config = "*"
                    \/ is_admin two_users_config update_from_user_1 = true
                    \/ str_in (pretty (from_user_id update_from_user_1))
                              (str_split ","%char (allowed_user_ids two_users_config))
                       = true)
    by (right; right; reflexivity).
  split; [exact Hlisted|].
  exact (listed_user_is_allowed two_users_config update_from_user_1
           SupergroupChat unreachable Hlisted).
Defined.

Lemma unlisted_user_access_witness :
  (allowed_user_ids two_users_config <> "*"
   /\ is_admin two_users_config update_from_user_3 = false
   /\ str_in (pretty (from_user_id update_from_user_3))
             (str_split ","%char (allowed_user_ids two_users_config)) = false)
  /\ is_allowed two_users_config update_from_user_3 PrivateChat group_with_user_2
     = Replied false
  /\ is_allowed two_users_config update_from_user_3 SupergroupChat group_with_user_2
     = Replied true.
Proof.
  destruct two_users_config_user_3 as (H1 & H2 & H3 & H4).
  split; [auto|]. split.
  - exact (proj1 (unlisted_user_access two_users_config update_from_user_3
                    PrivateChat group_with_user_2 H3 H1 H4) eq_refl).
  - apply (proj2 (unlisted_user_access two_users_config update_from_user_3
                    SupergroupChat group_with_user_2 H3 H1 H4) eq_refl).
    exists ["1"], "2", ["-"]. repeat split; try reflexivity.
    constructor; [right; reflexivity | constructor].
Defined.

Lemma refused_user_leaves_no_trace_witness :
  is_allowed two_users_config update_from_user_3 PrivateChat group_with_user_2
    <> Replied true
  /\ check_allowed_and_within_budget march_14 two_users_config two_users_bot
       update_from_user_3 PrivateChat group_with_user_2 nothing_fails
       (∅, two_files)
     = (Verdict false, (∅, two_files)).
Proof.
  assert (Hnot : is_allowed two_users_config update_from_user_3 PrivateChat
                   group_with_user_2 <> Replied true).
  { intros H. discriminate H. }
  split; [exact Hnot|].
  pose proof (refused_user_leaves_no_trace march_14 two_users_config
                two_users_bot update_from_user_3 PrivateChat group_with_user_2
                nothing_fails (∅, two_files) Hnot) as [Hstate _].
  rewrite (surjective_pairing (check_allowed_and_within_budget _ _ _ _ _ _ _ _)).
  rewrite Hstate. reflexivity.
Defined.

Lemma check_passes_iff_allowed_and_within_budget_witness :
  let bw : bot_world := ({[ IdInt 1 := tracker_with_cost 4.99 ]}, ∅) in
  is_allowed two_users_config update_from_user_1 PrivateChat group_with_user_2
    = Replied true
  /\ is_within_budget march_14 two_users_config update_from_user_1 bw = (Ok true, bw)
  /\ check_allowed_and_within_budget march_14 two_users_config two_users_bot
       update_from_user_1 PrivateChat group_with_user_2 nothing_fails bw
     = (Verdict true, bw).
Proof.
  intros bw.
  assert (Hallowed : is_allowed two_users_config update_from_user_1 PrivateChat
                       group_with_user_2 = Replied true) by reflexivity.
  assert (Hwithin : is_within_budget march_14 two_users_config update_from_user_1 bw
                    = (Ok true, bw)) by reflexivity.
  split; [exact Hallowed|]. split; [exact Hwithin|].
  exact (proj2 (check_passes_iff_allowed_and_within_budget march_14
                  two_users_config two_users_bot update_from_user_1 PrivateChat
                  group_with_user_2 nothing_fails bw bw)
               (conj Hallowed Hwithin)).
Defined.

Lemma split_into_chunks_concat_witness :
  0 < 4
  /\ split_into_chunks [1; 2; 3; 4; 5; 6; 7; 8; 9; 10] 4
     = Ok [[1; 2; 3; 4]; [5; 6; 7; 8]; [9; 10]]
  /\ exists chunks,
       split_into_chunks [1; 2; 3; 4; 5; 6; 7; 8; 9; 10] 4 = Ok chunks
       /\ concat chunks = [1; 2; 3; 4; 5; 6; 7; 8; 9; 10].
Proof.
  assert (Hpos : 0 < 4) by lia.
  split; [exact Hpos|]. split; [reflexivity|].
  exact (split_into_chunks_concat [1; 2; 3; 4; 5; 6; 7; 8; 9; 10] 4 Hpos).
Defined.

Lemma split_into_chunks_sizes_witness :
  0 < default_chunk_size
  /\ exists chunks,
       split_into_chunks (repeat "a"%char (Z.to_nat 10000)) default_chunk_size = Ok chunks
       /\ Z.of_nat (length chunks) = 3
       /\ Forall (fun chunk => 0 < Z.of_nat (length chunk) <= 4096) chunks
       /\ forall k, (S k < length chunks)%nat ->
                    Z.of_nat (length (nth k chunks [])) = 4096.
Proof.
  assert (Hpos : 0 < default_chunk_size) by (unfold default_chunk_size; lia).
  split; [exact Hpos|].
  destruct (split_into_chunks_sizes (repeat "a"%char (Z.to_nat 10000)) default_chunk_size Hpos)
    as (chunks & Hsplit & Hcount & Hsizes & Hfull).
  exists chunks. split; [exact Hsplit|]. split; [|split; [exact Hsizes | exact Hfull]].
  rewrite Hcount. reflexivity.
Defined.
